(** * HTDP batch driver: frame registry, script builder, point codec, invoker

    A shallow embedding of [app/htdp_runner.py] and [app/main.py].

    Python values are represented as follows.
    - [str] is a list of Unicode code points ([list N]); the helper [u]
      turns an ASCII literal into such a list.
    - [bytes] (file contents) is [list byte].
    - [int] is [Z]; [float] is an IEEE 754 binary64 value, carried as a
      [spec_float] with precision 53 and maximal exponent 1024.
    - [dict] with string keys is a [gmap]; the literal dict [FRAME_MENU],
      whose iteration order matters, is an association list in source order.
    - exceptions are values of [exn]; a fallible computation returns
      [result A = exn + A] and the file system is passed explicitly. *)

From Stdlib Require Import ZArith NArith List Bool Lia Decimal Ascii.
From Stdlib Require Import DecimalN.
From Stdlib Require Import Strings.Byte.
From Stdlib Require Import Floats.SpecFloat QArith Qround.
From stdpp Require Import base option list strings gmap.

Close Scope Q_scope.
Local Open Scope N_scope.

(** ** Text: [str] as a list of code points *)

Abbreviation str := (list N).

Fixpoint u (s : string) : str :=
  match s with
  | EmptyString => []
  | String a s' => N_of_ascii a :: u s'
  end.

Definition between (lo hi c : N) : bool := (lo <=? c) && (c <=? hi).

(** [str.isspace] on one character: the code points CPython treats as
    whitespace in [str.strip()] and [str.split()]. *)
Definition isspace (c : N) : bool :=
  between 0x09 0x0D c || between 0x1C 0x20 c || (c =? 0x85) || (c =? 0xA0)
  || (c =? 0x1680) || between 0x2000 0x200A c || (c =? 0x2028)
  || (c =? 0x2029) || (c =? 0x202F) || (c =? 0x205F) || (c =? 0x3000).

(** The C-locale [Py_ISSPACE] used inside [int()] and [float()]. *)
Definition c_isspace (c : N) : bool := between 0x09 0x0D c || (c =? 0x20).

Fixpoint dropwhile (p : N -> bool) (s : str) : str :=
  match s with
  | [] => []
  | c :: s' => if p c then dropwhile p s' else s
  end.

Fixpoint takewhile (p : N -> bool) (s : str) : str :=
  match s with
  | [] => []
  | c :: s' => if p c then c :: takewhile p s' else []
  end.

Definition strip_with (p : N -> bool) (s : str) : str :=
  rev (dropwhile p (rev (dropwhile p s))).

(** [s.strip()] *)
Definition strip (s : str) : str := strip_with isspace s.

(** [s.split()]: maximal runs of non-whitespace characters. [cur] holds the
    characters of the token being read, most recent first. *)
Fixpoint split_from (cur : str) (s : str) : list str :=
  match s with
  | [] => match cur with [] => [] | _ => [rev cur] end
  | c :: s' =>
      if isspace c
      then match cur with
           | [] => split_from [] s'
           | _ => rev cur :: split_from [] s'
           end
      else split_from (c :: cur) s'
  end.

Definition split (s : str) : list str := split_from [] s.

(** [s.startswith(p)] *)
Fixpoint startswith (s p : str) : bool :=
  match p, s with
  | [], _ => true
  | _ :: _, [] => false
  | a :: p', b :: s' => (a =? b) && startswith s' p'
  end.

(** [sep.join(parts)] *)
Fixpoint join (sep : str) (parts : list str) : str :=
  match parts with
  | [] => []
  | [p] => p
  | p :: rest => p ++ sep ++ join sep rest
  end.

(** [c in s] for a one-character string [c]. *)
Definition contains (c : N) (s : str) : bool := existsb (N.eqb c) s.

(** [s.split(c)[0]] for a one-character separator: the text before the
    first occurrence of [c] (all of [s] if there is none). *)
Definition before_first (c : N) (s : str) : str :=
  takewhile (fun x => negb (x =? c)) s.

(** [s.lower()], one character at a time.  Upper-case ASCII letters move to
    lower case; U+0130 and U+212A are the two characters outside ASCII whose
    lower-case form contains an ASCII letter.  Every other character of
    [s.lower()] lies outside ASCII, like the character it comes from, and is
    left in place here. *)
Definition lower_char (c : N) : str :=
  if between 0x41 0x5A c then [c + 32]
  else if c =? 0x130 then [0x69; 0x307]
  else if c =? 0x212A then [0x6B]
  else [c].

Definition lower (s : str) : str := flat_map lower_char s.

(** The character class [[a-z0-9]]. *)
Definition is_a_z_0_9 (c : N) : bool := between 0x61 0x7A c || between 0x30 0x39 c.

(** [re.sub(r"[^a-z0-9]", "", s)] *)
Definition re_sub_non_alnum (s : str) : str := List.filter is_a_z_0_9 s.

(** First code point of each block of ten Unicode decimal digits
    (general category Nd). *)
Definition decimal_zeros : list N :=
  [ 0x30; 0x660; 0x6F0; 0x7C0; 0x966; 0x9E6; 0xA66; 0xAE6; 0xB66; 0xBE6; 0xC66;
    0xCE6; 0xD66; 0xDE6; 0xE50; 0xED0; 0xF20; 0x1040; 0x1090; 0x17E0; 0x1810;
    0x1946; 0x19D0; 0x1A80; 0x1A90; 0x1B50; 0x1BB0; 0x1C40; 0x1C50; 0xA620;
    0xA8D0; 0xA900; 0xA9D0; 0xA9F0; 0xAA50; 0xABF0; 0xFF10; 0x104A0; 0x10D30;
    0x11066; 0x110F0; 0x11136; 0x111D0; 0x112F0; 0x11450; 0x114D0; 0x11650;
    0x116C0; 0x11730; 0x118E0; 0x11950; 0x11C50; 0x11D50; 0x11DA0; 0x16A60;
    0x16AC0; 0x16B50; 0x1D7CE; 0x1D7D8; 0x1D7E2; 0x1D7EC; 0x1D7F6; 0x1E140;
    0x1E2F0; 0x1E950; 0x1FBF0 ].

(** [unicodedata.decimal(c)], when [c] is a decimal digit. *)
Definition decimal_value (c : N) : option N :=
  match List.find (fun z => between z (z + 9) c) decimal_zeros with
  | Some z => Some (c - z)
  | None => None
  end.

(** Characters with the Digit property that are not decimal digits
    (superscripts, circled digits and the like). *)
Definition other_digit_ranges : list (N * N) :=
  [ (0xB2, 0xB3); (0xB9, 0xB9); (0x1369, 0x1371); (0x19DA, 0x19DA);
    (0x2070, 0x2070); (0x2074, 0x2079); (0x2080, 0x2089); (0x2460, 0x2468);
    (0x2474, 0x247C); (0x2488, 0x2490); (0x24EA, 0x24EA); (0x24F5, 0x24FD);
    (0x24FF, 0x24FF); (0x2776, 0x277E); (0x2780, 0x2788); (0x278A, 0x2792);
    (0x10A40, 0x10A43); (0x10E60, 0x10E68); (0x11052, 0x1105A);
    (0x1F100, 0x1F10A) ].

Definition isdigit_char (c : N) : bool :=
  match decimal_value c with
  | Some _ => true
  | None => existsb (fun r => between (fst r) (snd r) c) other_digit_ranges
  end.

(** [s.isdigit()] *)
Definition isdigit (s : str) : bool :=
  match s with
  | [] => false
  | _ => forallb isdigit_char s
  end.

(** ** Exceptions *)

(** The payload of a [ValueError]: which message it carries, with the
    values interpolated into it. *)
Inductive value_error :=
  | UnknownFrameIndex (value : Z)     (* "Unknown reference frame index: {value}" *)
  | EmptyFrame                        (* "Reference frame cannot be empty" *)
  | UnrecognisedFrame (value : str)   (* "Unrecognised reference frame '{value}'. Use one of: ..." *)
  | InvalidIntLiteral (text : str)    (* raised by int() *)
  | IntDigitLimit (digits : nat)      (* raised by int() *)
  | InvalidFloatLiteral (text : str)  (* raised by float() *)
  | EpochTooEarly                     (* "Epoch must be 1906.0 or later ..." *)
  | NoPoints.                         (* "At least one point is required" *)

Inductive file_not_found :=
  | BinaryNotFound (path : str)       (* "HTDP binary not found at {HTDP_BINARY}. ..." *)
  | OutputNotCreated (path : str).    (* "HTDP output file was not created: {path}" *)

Inductive exn :=
  | ValueError (e : value_error)
  | IndexError
  | FileNotFoundError (e : file_not_found)
  | PermissionError (path : str)      (* "HTDP binary at {HTDP_BINARY} is not executable" *)
  | RuntimeError (stdout stderr : str) (* ("HTDP execution failed", stdout, stderr) *)
  | TimeoutExpired (timeout : Z)       (* subprocess.TimeoutExpired *)
  | UnicodeEncodeError                 (* a subclass of ValueError *)
  | UnicodeDecodeError                 (* a subclass of ValueError *)
  | HTTPException (status_code : Z) (cause : exn). (* detail built from [cause] *)

(** [isinstance(e, ValueError)], as tested by [except ValueError]. *)
Definition is_ValueError (e : exn) : bool :=
  match e with
  | ValueError _ | UnicodeEncodeError | UnicodeDecodeError => true
  | _ => false
  end.

Abbreviation result A := (exn + A)%type.

Definition raise {A} (e : exn) : result A := inl e.
Definition ret {A} (a : A) : result A := inr a.
Definition bind {A B} (m : result A) (k : A -> result B) : result B :=
  match m with
  | inl e => inl e
  | inr a => k a
  end.

Notation "'do' x <- m ; k" := (bind m (fun x => k))
  (at level 10, x name, m at level 100, k at level 200).

(** ** Integers as text *)

Definition is_ascii_digit (c : N) : bool := between 0x30 0x39 c.

(** First step of [int(s)] and [float(s)] on a [str]: a character outside
    ASCII is replaced by a space if it is whitespace and by its ASCII digit
    if it is a decimal digit; any other such character makes the
    conversion fail. *)
Fixpoint to_ascii_decimal (s : str) : option str :=
  match s with
  | [] => Some []
  | c :: s' =>
      if c <? 127 then cons c <$> to_ascii_decimal s'
      else if isspace c then cons 0x20 <$> to_ascii_decimal s'
      else match decimal_value c with
           | Some d => cons (0x30 + d) <$> to_ascii_decimal s'
           | None => None
           end
  end.

(** Underscores in numeric text: each must stand between two digits, and
    they are dropped.  [prev] is the character read before [s]. *)
Fixpoint remove_underscores (prev : N) (s : str) : option str :=
  match s with
  | [] => if prev =? 0x5F then None else Some []
  | c :: s' =>
      if c =? 0x5F
      then (if is_ascii_digit prev then remove_underscores c s' else None)
      else if (prev =? 0x5F) && negb (is_ascii_digit c) then None
      else cons c <$> remove_underscores c s'
  end.

(** Value of a run of ASCII digits, most significant first. *)
Definition digits_value (ds : str) : Z :=
  fold_left (fun acc c => (10 * acc + Z.of_N (c - 0x30))%Z) ds 0%Z.

(** [sys.get_int_max_str_digits()] *)
Definition int_max_str_digits : nat := 4300.

(** [int(s)] for a [str] in base 10. *)
Definition int_of_str (s : str) : result Z :=
  match to_ascii_decimal s with
  | None => raise (ValueError (InvalidIntLiteral s))
  | Some a =>
      let a := strip_with c_isspace a in
      let '(negative, body) :=
        match a with
        | 0x2B :: r => (false, r)
        | 0x2D :: r => (true, r)
        | _ => (false, a)
        end in
      match remove_underscores 0 body with
      | None => raise (ValueError (InvalidIntLiteral s))
      | Some ds =>
          if negb (forallb is_ascii_digit ds) || (length ds =? 0)%nat
          then raise (ValueError (InvalidIntLiteral s))
          else if (int_max_str_digits <? length ds)%nat
          then raise (ValueError (IntDigitLimit (length ds)))
          else ret (if negative then - digits_value ds else digits_value ds)%Z
      end
  end.

Fixpoint uint_chars (d : Decimal.uint) : str :=
  match d with
  | Nil => []
  | D0 d => 0x30 :: uint_chars d
  | D1 d => 0x31 :: uint_chars d
  | D2 d => 0x32 :: uint_chars d
  | D3 d => 0x33 :: uint_chars d
  | D4 d => 0x34 :: uint_chars d
  | D5 d => 0x35 :: uint_chars d
  | D6 d => 0x36 :: uint_chars d
  | D7 d => 0x37 :: uint_chars d
  | D8 d => 0x38 :: uint_chars d
  | D9 d => 0x39 :: uint_chars d
  end.

(** Decimal digits of a natural number, without leading zeros ("0" for 0). *)
Definition digits_of_N (n : N) : str := uint_chars (N.to_uint n).

(** [str(i)] for an [int]. *)
Definition str_of_int (i : Z) : str :=
  match i with
  | Zneg p => 0x2D :: digits_of_N (Npos p)
  | _ => digits_of_N (Z.to_N i)
  end.

(** ** Frame registry *)

(** Menu indices and labels from MENU1 in htdp.f, in the order of the
    dict literal. *)
Definition FRAME_MENU : list (Z * str) :=
  [ (1, u "NAD_83(2011/CORS96/2007)");
    (2, u "NAD_83(PA11/PACP00)");
    (3, u "NAD_83(MA11/MARP00)");
    (4, u "WGS72");
    (5, u "WGS84 original (Transit)");
    (6, u "WGS84(G730)");
    (7, u "WGS84(G873)");
    (8, u "WGS84(G1150)");
    (9, u "WGS84(G1674)");
    (10, u "WGS84(G1762)");
    (11, u "WGS84(G2139)");
    (12, u "WGS84(G2296)");
    (13, u "ITRF88");
    (14, u "ITRF89");
    (15, u "ITRF90");
    (16, u "ITRF91");
    (17, u "ITRF92");
    (18, u "ITRF93");
    (19, u "ITRF94");
    (20, u "ITRF96");
    (21, u "ITRF97");
    (22, u "ITRF2000 or IGS00/IGb00");
    (23, u "ITRF2005 or IGS05");
    (24, u "ITRF2008 or IGS08/IGb08");
    (25, u "ITRF2014 or IGS14/IGb14");
    (26, u "ITRF2020 or IGS20/IGb20") ]%Z.

(** [menu[i]] / [i in menu] on the association list. *)
Fixpoint menu_get (menu : list (Z * str)) (i : Z) : option str :=
  match menu with
  | [] => None
  | (j, label) :: rest => if (i =? j)%Z then Some label else menu_get rest i
  end.

Definition in_menu (menu : list (Z * str)) (i : Z) : bool :=
  match menu_get menu i with Some _ => true | None => false end.

Definition _normalise_label (value : str) : str :=
  re_sub_non_alnum (lower value).

(** [d.setdefault(k, v)], for its effect on [d]. *)
Definition setdefault (k : str) (v : Z) (d : gmap str Z) : gmap str Z :=
  match d !! k with
  | Some _ => d
  | None => <[k := v]> d
  end.

(** One iteration of the loop that fills [_frame_aliases]. *)
Definition register_aliases (aliases : gmap str Z) (entry : Z * str)
  : result (gmap str Z) :=
  let '(idx, label) := entry in
  let aliases := <[_normalise_label label := idx]> aliases in
  match split label with
  | [] => raise IndexError
  | short_label :: _ =>
      let aliases := setdefault (_normalise_label short_label) idx aliases in
      if contains 0x28 label
      then
        let before_paren := before_first 0x28 label in
        ret (setdefault (_normalise_label before_paren) idx aliases)
      else ret aliases
  end.

Fixpoint build_aliases (aliases : gmap str Z) (menu : list (Z * str))
  : result (gmap str Z) :=
  match menu with
  | [] => ret aliases
  | entry :: rest =>
      do aliases <- register_aliases aliases entry;
      build_aliases aliases rest
  end.

Definition _frame_aliases : gmap str Z :=
  match build_aliases ∅ FRAME_MENU with
  | inr aliases => aliases
  | inl _ => ∅
  end.

(** ** Frame resolution *)

(** The argument of [resolve_frame], of type [str | int]. *)
Inductive frame_id :=
  | FInt (value : Z)
  | FStr (value : str).

(** The [isinstance(value, int)] branch of [resolve_frame]. *)
Definition resolve_index (value : Z) : result Z :=
  if in_menu FRAME_MENU value then ret value
  else raise (ValueError (UnknownFrameIndex value)).

Definition resolve_frame (value : frame_id) : result Z :=
  match value with
  | FInt i => resolve_index i
  | FStr value =>
      let text := strip value in
      match text with
      | [] => raise (ValueError EmptyFrame)
      | _ =>
          if isdigit text
          then do i <- int_of_str text; resolve_index i
          else
            let key := _normalise_label text in
            match _frame_aliases !! key with
            | Some idx => ret idx
            | None => raise (ValueError (UnrecognisedFrame value))
            end
      end
  end.

(** ** Floats *)

Definition prec : Z := 53.
Definition emax : Z := 1024.

(** Unary minus on a [float]. *)
Definition float_neg (x : spec_float) : spec_float := SFopp x.

Definition pow10 (k : Z) : positive :=
  match k with
  | Zpos p => Pos.pow 10 p
  | _ => 1%positive
  end.

(** The [float] nearest to [d * 10^k] for a natural number [d], ties to
    even, with sign [negative]; overflow gives an infinity. *)
Definition dec_to_float (negative : bool) (d : Z) (k : Z) : spec_float :=
  match d with
  | Zpos m =>
      if (0 <=? k)%Z
      then binary_round prec emax negative (m * pow10 k) 0
      else SFdiv prec emax (S754_finite negative m 0)
                           (S754_finite false (pow10 (- k)) 0)
  | _ => S754_zero negative
  end.

Fixpoint str_eqb (a b : str) : bool :=
  match a, b with
  | [], [] => true
  | x :: a', y :: b' => (x =? y) && str_eqb a' b'
  | _, _ => false
  end.

Definition lower_ascii (c : N) : N := if between 0x41 0x5A c then c + 32 else c.

(** An optional leading sign: [true] for a minus. *)
Definition split_sign (s : str) : bool * str :=
  match s with
  | 0x2B :: r => (false, r)
  | 0x2D :: r => (true, r)
  | _ => (false, s)
  end.

(** "inf", "infinity" and "nan" in any case. *)
Definition parse_inf_or_nan (negative : bool) (s : str) : option spec_float :=
  let t := map lower_ascii s in
  if str_eqb t (u "inf") || str_eqb t (u "infinity") then Some (S754_infinity negative)
  else if str_eqb t (u "nan") then Some S754_nan
  else None.

(** Decimal text: digits with an optional point, at least one digit, and
    an optional exponent. *)
Definition parse_decimal (negative : bool) (s : str) : option spec_float :=
  let int_part := takewhile is_ascii_digit s in
  let r1 := dropwhile is_ascii_digit s in
  let '(frac_part, r2) :=
    match r1 with
    | 0x2E :: r => (takewhile is_ascii_digit r, dropwhile is_ascii_digit r)
    | _ => ([], r1)
    end in
  let digits := int_part ++ frac_part in
  let scale := Z.of_nat (length frac_part) in
  match digits, r2 with
  | [], _ => None
  | _, [] => Some (dec_to_float negative (digits_value digits) (- scale))
  | _, e :: r3 =>
      if lower_ascii e =? 0x65
      then
        let '(exp_negative, exp_digits) := split_sign r3 in
        match exp_digits with
        | [] => None
        | _ =>
            if forallb is_ascii_digit exp_digits
            then
              let exponent := digits_value exp_digits in
              Some (dec_to_float negative (digits_value digits)
                      ((if exp_negative then - exponent else exponent) - scale))
            else None
        end
      else None
  end.

(** [float(s)] for a [str]. *)
Definition float_of_str (s : str) : result spec_float :=
  match to_ascii_decimal s with
  | None => raise (ValueError (InvalidFloatLiteral s))
  | Some a =>
      match remove_underscores 0 a with
      | None => raise (ValueError (InvalidFloatLiteral s))
      | Some a =>
          let '(negative, body) := split_sign (strip_with c_isspace a) in
          match parse_decimal negative body with
          | Some x => ret x
          | None =>
              match parse_inf_or_nan negative body with
              | Some x => ret x
              | None => raise (ValueError (InvalidFloatLiteral s))
              end
          end
      end
  end.

(** The value of a float literal of the source, such as [1906.0]. *)
Definition float_lit (s : string) : spec_float :=
  match float_of_str (u s) with
  | inr x => x
  | inl _ => S754_nan
  end.

(** Exact value of a finite float's magnitude. *)
Definition magnitude (m : positive) (e : Z) : Q :=
  (Zpos m # 1) * Qpower (2 # 1) e.

(** Round a non-negative rational to the nearest integer, ties to even. *)
Definition round_half_even (q : Q) : Z :=
  let f := Qfloor q in
  match Qcompare (q - (f # 1)) (1 # 2) with
  | Lt => f
  | Gt => (f + 1)%Z
  | Eq => if Z.even f then f else (f + 1)%Z
  end.

Definition zeros (n : nat) : str := repeat 0x30 n.

(** [format(x, ".{p}f")]: fixed notation with [p] decimals. *)
Definition format_f (p : nat) (x : spec_float) : str :=
  let body (scaled : Z) : str :=
    let ds := digits_of_N (Z.to_N scaled) in
    let ds := zeros (S p - length ds) ++ ds in
    let n := (length ds - p)%nat in
    match p with
    | O => ds
    | _ => firstn n ds ++ [0x2E] ++ skipn n ds
    end in
  let sign (s : bool) : str := if s then [0x2D] else [] in
  match x with
  | S754_nan => u "nan"
  | S754_infinity s => sign s ++ u "inf"
  | S754_zero s => sign s ++ body 0%Z
  | S754_finite s m e =>
      sign s ++ body (round_half_even (magnitude m e * Qpower (10 # 1) (Z.of_nat p)))
  end.

(** Largest [E] among [lo + fuel - 1, ..., lo] with [10^E <= q]
    ([lo - 1] if there is none). *)
Fixpoint decimal_exponent_from (fuel : nat) (lo : Z) (q : Q) : Z :=
  match fuel with
  | O => (lo - 1)%Z
  | S fuel' =>
      let E := (lo + Z.of_nat fuel')%Z in
      if Qle_bool (Qpower (10 # 1) E) q then E else decimal_exponent_from fuel' lo q
  end.

(** [floor(log10 q)] for a positive [q], looked for around the estimate
    that the binary logarithm gives ([1233 / 4096] approximates
    [log10 2]). *)
Definition decimal_exponent (q : Q) : Z :=
  let bits := (Z.log2 (Qnum q) - Z.log2 (Zpos (Qden q)))%Z in
  decimal_exponent_from 5 (bits * 1233 / 4096 - 2) q.

(** Drop trailing zeros of [d], moving them into the exponent [k]. *)
Fixpoint strip_zeros (fuel : nat) (d k : Z) : Z * Z :=
  match fuel with
  | O => (d, k)
  | S fuel' =>
      if (d =? 0)%Z then (d, k)
      else if (d mod 10 =? 0)%Z then strip_zeros fuel' (d / 10)%Z (k + 1)%Z
      else (d, k)
  end.

(** The [n]-digit decimals [d * 10^k] just below and just above the
    positive float [m * 2^e] that read back as that float; of two, the
    nearer one, and the even one when the float lies half-way. *)
Definition short_candidate (m : positive) (e : Z) (E : Z) (n : nat)
  : option (Z * Z) :=
  let x := S754_finite false m e in
  let q := magnitude m e in
  let k := (E - Z.of_nat n + 1)%Z in
  let lo := Qfloor (q * Qpower (10 # 1) (- k)) in
  let hi := (lo + 1)%Z in
  let reads_back (d : Z) := SFeqb (dec_to_float false d k) x in
  match reads_back lo, reads_back hi with
  | true, true =>
      match Qcompare (q * Qpower (10 # 1) (- k) - (lo # 1)) (1 # 2) with
      | Lt => Some (lo, k)
      | Gt => Some (hi, k)
      | Eq => Some (if Z.even lo then lo else hi, k)
      end
  | true, false => Some (lo, k)
  | false, true => Some (hi, k)
  | false, false => None
  end.

(** The shortest decimal that reads back as the positive float
    [m * 2^e], searched from [n] digits upwards; [E] is the decimal
    exponent of the float. *)
Fixpoint shortest_decimal (fuel : nat) (n : nat) (m : positive) (e : Z) (E : Z)
  : Z * Z :=
  match fuel with
  | O => (Zpos m, 0%Z)
  | S fuel' =>
      match short_candidate m e E n with
      | Some (d, k) => strip_zeros 20 d k
      | None => shortest_decimal fuel' (S n) m e E
      end
  end.

(** [repr(x)], which is also [str(x)] and [f"{x}"], for a [float]. *)
Definition float_repr (x : spec_float) : str :=
  let sign (s : bool) : str := if s then [0x2D] else [] in
  match x with
  | S754_nan => u "nan"
  | S754_infinity s => sign s ++ u "inf"
  | S754_zero s => sign s ++ u "0.0"
  | S754_finite s m e =>
      let '(d, k) := shortest_decimal 17 1 m e (decimal_exponent (magnitude m e)) in
      let ds := digits_of_N (Z.to_N d) in
      let nd := Z.of_nat (length ds) in
      let decpt := (nd + k)%Z in
      sign s ++
      if ((decpt <=? -4) || (16 <? decpt))%Z
      then
        let exponent := (decpt - 1)%Z in
        let es := digits_of_N (Z.to_N (Z.abs exponent)) in
        firstn 1 ds
        ++ (match skipn 1 ds with [] => [] | rest => 0x2E :: rest end)
        ++ [0x65; if (exponent <? 0)%Z then 0x2D else 0x2B]
        ++ zeros (2 - length es) ++ es
      else if (decpt <=? 0)%Z
      then u "0." ++ zeros (Z.to_nat (- decpt)) ++ ds
      else if (nd <=? decpt)%Z
      then ds ++ zeros (Z.to_nat (decpt - nd)) ++ u ".0"
      else firstn (Z.to_nat decpt) ds ++ [0x2E] ++ skipn (Z.to_nat decpt) ds
  end.

(** ** Request and result models *)

Record TransformationPoint := {
  name : str;
  latitude : spec_float;
  longitude : spec_float;
  ellipsoid_height : spec_float
}.

Record TransformationRequest := {
  input_frame : Z;
  output_frame : Z;
  input_epoch : spec_float;
  output_epoch : spec_float;
  points : list TransformationPoint
}.

Record TransformationResult := {
  result_name : str;
  result_latitude : spec_float;
  result_longitude : spec_float;
  result_ellipsoid_height : spec_float
}.

Record HTDPExecution := {
  stdout : str;
  stderr : str;
  results : list TransformationResult
}.

Definition _strip_name (value : str) : str := strip value.

Definition _validate_frame (value : frame_id) : result Z := resolve_frame value.

Definition _validate_epoch (value : spec_float) : result spec_float :=
  if SFltb value (float_lit "1906.0") then raise (ValueError EpochTooEarly)
  else ret value.

Definition _require_points (value : list TransformationPoint)
  : result (list TransformationPoint) :=
  match value with
  | [] => raise (ValueError NoPoints)
  | _ => ret value
  end.

(** ** Script builder *)

(** The local list [lines] of [build_stdin_script], after the final
    [append].  Paths are given by their text, [str(path)]. *)
Definition script_lines (output_path : str) (input_frame output_frame : Z)
    (input_epoch output_epoch : spec_float) (input_file : str) : list str :=
  [ u "4";                     (* main menu: transform positions between reference frames and/or dates *)
    output_path;
    str_of_int input_frame;
    str_of_int output_frame;
    u "2";                     (* input epoch as decimal year *)
    float_repr input_epoch;
    u "2";                     (* output epoch as decimal year *)
    float_repr output_epoch;
    u "3";                     (* supply positions via LAT,LON,EHT,TEXT file *)
    input_file;
    u "0" ]                    (* return to main menu once processing is complete *)
  ++ [ u "0" ].                (* exit the program cleanly *)

Definition build_stdin_script (output_path : str) (input_frame output_frame : Z)
    (input_epoch output_epoch : spec_float) (input_file : str) : str :=
  join [0x0A]
    (script_lines output_path input_frame output_frame input_epoch output_epoch
       input_file)
  ++ [0x0A].

(** ** Files *)

Abbreviation bytes := (list byte).

(** ASCII literal as [bytes]. *)
Definition b (s : string) : bytes := String.list_byte_of_string s.

(** The regular files of the file system, by path. *)
Abbreviation filesystem := (gmap str bytes).

Definition byte_of (n : N) : byte :=
  match Byte.of_N n with
  | Some x => x
  | None => x00
  end.

(** UTF-8 encoding of one character; surrogates cannot be encoded. *)
Definition utf8_encode_char (c : N) : option bytes :=
  if c <? 0x80 then Some [byte_of c]
  else if c <? 0x800 then
    Some [byte_of (0xC0 + c / 64); byte_of (0x80 + c mod 64)]
  else if between 0xD800 0xDFFF c then None
  else if c <? 0x10000 then
    Some [byte_of (0xE0 + c / 4096); byte_of (0x80 + (c / 64) mod 64);
          byte_of (0x80 + c mod 64)]
  else if c <? 0x110000 then
    Some [byte_of (0xF0 + c / 262144); byte_of (0x80 + (c / 4096) mod 64);
          byte_of (0x80 + (c / 64) mod 64); byte_of (0x80 + c mod 64)]
  else None.

(** [s.encode("utf-8")] *)
Fixpoint utf8_encode (s : str) : result bytes :=
  match s with
  | [] => ret []
  | c :: s' =>
      match utf8_encode_char c with
      | None => raise UnicodeEncodeError
      | Some bs => do rest <- utf8_encode s'; ret (bs ++ rest)
      end
  end.

Definition is_continuation (x : N) : bool := between 0x80 0xBF x.

(** [data.decode("utf-8", errors="ignore")]: well-formed sequences give
    their character; at an ill-formed one the bytes of its longest
    well-formed start (at least one byte) are dropped; a sequence cut short
    by the end of the data is dropped. *)
Fixpoint utf8_decode_ignore (data : bytes) : str :=
  match data with
  | [] => []
  | b1 :: rest1 =>
      let c1 := Byte.to_N b1 in
      if c1 <? 0x80 then c1 :: utf8_decode_ignore rest1
      else if c1 <? 0xC2 then utf8_decode_ignore rest1
      else
        match rest1 with
        | [] => []
        | b2 :: rest2 =>
            let c2 := Byte.to_N b2 in
            if c1 <? 0xE0 then
              if is_continuation c2
              then ((c1 - 0xC0) * 64 + (c2 - 0x80)) :: utf8_decode_ignore rest2
              else utf8_decode_ignore rest1
            else if c1 <? 0xF0 then
              if negb (is_continuation c2)
                 || ((c1 =? 0xE0) && (c2 <? 0xA0))
                 || ((c1 =? 0xED) && (0xA0 <=? c2))
              then utf8_decode_ignore rest1
              else
                match rest2 with
                | [] => []
                | b3 :: rest3 =>
                    let c3 := Byte.to_N b3 in
                    if is_continuation c3
                    then ((c1 - 0xE0) * 4096 + (c2 - 0x80) * 64 + (c3 - 0x80))
                         :: utf8_decode_ignore rest3
                    else utf8_decode_ignore rest2
                end
            else if c1 <? 0xF5 then
              if negb (is_continuation c2)
                 || ((c1 =? 0xF0) && (c2 <? 0x90))
                 || ((c1 =? 0xF4) && (0x90 <=? c2))
              then utf8_decode_ignore rest1
              else
                match rest2 with
                | [] => []
                | b3 :: rest3 =>
                    let c3 := Byte.to_N b3 in
                    if negb (is_continuation c3) then utf8_decode_ignore rest2
                    else
                      match rest3 with
                      | [] => []
                      | b4 :: rest4 =>
                          let c4 := Byte.to_N b4 in
                          if is_continuation c4
                          then ((c1 - 0xF0) * 262144 + (c2 - 0x80) * 4096
                                + (c3 - 0x80) * 64 + (c4 - 0x80))
                               :: utf8_decode_ignore rest4
                          else utf8_decode_ignore rest3
                      end
                end
            else utf8_decode_ignore rest1
        end
  end.

(** [data.decode("utf-8")], with the default [errors="strict"]: [None]
    where [UnicodeDecodeError] is raised, at the first ill-formed or
    unfinished sequence. *)
Fixpoint utf8_decode_strict (data : bytes) : option str :=
  match data with
  | [] => Some []
  | b1 :: rest1 =>
      let c1 := Byte.to_N b1 in
      if c1 <? 0x80 then cons c1 <$> utf8_decode_strict rest1
      else if c1 <? 0xC2 then None
      else
        match rest1 with
        | [] => None
        | b2 :: rest2 =>
            let c2 := Byte.to_N b2 in
            if c1 <? 0xE0 then
              if is_continuation c2
              then cons ((c1 - 0xC0) * 64 + (c2 - 0x80)) <$> utf8_decode_strict rest2
              else None
            else if c1 <? 0xF0 then
              if negb (is_continuation c2)
                 || ((c1 =? 0xE0) && (c2 <? 0xA0))
                 || ((c1 =? 0xED) && (0xA0 <=? c2))
              then None
              else
                match rest2 with
                | [] => None
                | b3 :: rest3 =>
                    let c3 := Byte.to_N b3 in
                    if is_continuation c3
                    then cons ((c1 - 0xE0) * 4096 + (c2 - 0x80) * 64 + (c3 - 0x80))
                         <$> utf8_decode_strict rest3
                    else None
                end
            else if c1 <? 0xF5 then
              if negb (is_continuation c2)
                 || ((c1 =? 0xF0) && (c2 <? 0x90))
                 || ((c1 =? 0xF4) && (0x90 <=? c2))
              then None
              else
                match rest2 with
                | [] => None
                | b3 :: rest3 =>
                    let c3 := Byte.to_N b3 in
                    if negb (is_continuation c3) then None
                    else
                      match rest3 with
                      | [] => None
                      | b4 :: rest4 =>
                          let c4 := Byte.to_N b4 in
                          if is_continuation c4
                          then cons ((c1 - 0xF0) * 262144 + (c2 - 0x80) * 4096
                                     + (c3 - 0x80) * 64 + (c4 - 0x80))
                               <$> utf8_decode_strict rest4
                          else None
                      end
                end
            else None
        end
  end.

(** [s.replace("\r\n", "\n").replace("\r", "\n")] *)
Fixpoint translate_newlines (s : str) : str :=
  match s with
  | [] => []
  | c :: s' =>
      if c =? 0x0D then
        0x0A :: match s' with
                | c' :: s'' =>
                    if c' =? 0x0A then translate_newlines s'' else translate_newlines s'
                | [] => []
                end
      else c :: translate_newlines s'
  end.

(** The lines a text-mode file object yields when iterated: "\r\n" and
    "\r" read as "\n"; every line but possibly the last ends in "\n".
    [cur] holds the line being read, most recent character first. *)
Fixpoint text_lines_from (cur : str) (s : str) : list str :=
  match s with
  | [] => match cur with [] => [] | _ => [rev cur] end
  | c :: s' =>
      if c =? 0x0A then rev (0x0A :: cur) :: text_lines_from [] s'
      else if c =? 0x0D then
        match s' with
        | c' :: s'' =>
            if c' =? 0x0A then rev (0x0A :: cur) :: text_lines_from [] s''
            else rev (0x0A :: cur) :: text_lines_from [] s'
        | [] => [rev (0x0A :: cur)]
        end
      else text_lines_from (c :: cur) s'
  end.

Definition text_lines (s : str) : list str := text_lines_from [] s.

(** ** Point codec *)

(** The line [write_input_file] writes for one point. *)
Definition point_line (point : TransformationPoint) : str :=
  let lon_west := float_neg (longitude point) in
  format_f 12 (latitude point) ++ u "," ++ format_f 12 lon_west ++ u ","
  ++ format_f 4 (ellipsoid_height point) ++ u "," ++ name point ++ [0x0A].

(** The loop of [write_input_file]: [written] is what the handle holds so
    far.  A line that cannot be encoded stops the loop with the exception;
    the lines before it stay written. *)
Fixpoint write_points (points : list TransformationPoint) (written : bytes)
  : bytes * result unit :=
  match points with
  | [] => (written, ret tt)
  | point :: rest =>
      match utf8_encode (point_line point) with
      | inl e => (written, inl e)
      | inr data => write_points rest (written ++ data)
      end
  end.

Definition write_input_file (points : list TransformationPoint) (path : str)
    (fs : filesystem) : filesystem * result unit :=
  let '(data, outcome) := write_points points [] in
  (<[path := data]> fs, outcome).

(** [parts[i]] *)
Definition item (parts : list str) (i : nat) : result str :=
  match nth_error parts i with
  | Some x => ret x
  | None => raise IndexError
  end.

(** The body of the loop of [parse_output_file] for one line: the result
    to append, or [None] where the body ends in [continue]. *)
Definition parse_line (line : str) : result (option TransformationResult) :=
  let stripped := strip line in
  match stripped with
  | [] => ret None
  | _ =>
      if startswith stripped (u "TRANSFORMING") || startswith stripped (u "***")
      then ret None
      else
        let parts := split stripped in
        if (length parts <? 4)%nat then ret None
        else
          let attempt :=
            do p0 <- item parts 0; do latitude <- float_of_str p0;
            do p1 <- item parts 1; do longitude_west <- float_of_str p1;
            do p2 <- item parts 2; do height <- float_of_str p2;
            ret (latitude, longitude_west, height) in
          match attempt with
          | inl e => if is_ValueError e then ret None else raise e
          | inr (latitude, longitude_west, height) =>
              let name := join (u " ") (skipn 3 parts) in
              ret (Some {| result_name := name;
                           result_latitude := latitude;
                           result_longitude := float_neg longitude_west;
                           result_ellipsoid_height := height |})
          end
  end.

Fixpoint parse_lines (lines : list str) (results : list TransformationResult)
  : result (list TransformationResult) :=
  match lines with
  | [] => ret results
  | line :: rest =>
      do parsed <- parse_line line;
      match parsed with
      | None => parse_lines rest results
      | Some r => parse_lines rest (results ++ [r])
      end
  end.

Definition parse_output_file (path : str) (fs : filesystem)
  : result (list TransformationResult) :=
  match fs !! path with
  | None => raise (FileNotFoundError (OutputNotCreated path))
  | Some data => parse_lines (text_lines (utf8_decode_ignore data)) []
  end.

(** ** Engine invoker *)

(** How a child process ended. *)
Inductive child_status :=
  | Exited (code : Z)
  | Killed.

(** The state outside the program: regular files, the paths that may be
    executed, and the child processes that have ended, oldest first. *)
Record world := {
  files : filesystem;
  executables : gset str;
  children : list child_status
}.

(** One run of the HTDP binary left to itself: how long it takes (seconds),
    its exit status, the bytes it writes to its standard output and error,
    and the files as it leaves them when it ends, by itself or killed. *)
Record engine_run := {
  elapsed : Q;
  exit_status : Z;
  run_stdout : bytes;
  run_stderr : bytes;
  files_left : filesystem
}.

Record environment := {
  REPO_ROOT : str;
  (** the directory [tempfile] creates for a prefix *)
  mkdtemp : str -> world -> str;
  (** the binary's behaviour on a standard input and a file system *)
  htdp : str -> filesystem -> engine_run
}.

(** [path / name] *)
Definition path_join (path : str) (name : string) : str := path ++ u "/" ++ u name.

Definition HTDP_BINARY (env : environment) : str := path_join (REPO_ROOT env) "htdp".

Definition ensure_binary_exists (env : environment) (w : world) : result unit :=
  match files w !! HTDP_BINARY env with
  | None => raise (FileNotFoundError (BinaryNotFound (HTDP_BINARY env)))
  | Some _ =>
      if bool_decide (HTDP_BINARY env ∈ executables w) then ret tt
      else raise (PermissionError (HTDP_BINARY env))
  end.

Record CompletedProcess := {
  returncode : Z;
  completed_stdout : str;
  completed_stderr : str
}.

(** What [communicate()] makes of a captured stream in text mode: the
    bytes decoded, strictly, and the line ends translated.  The encoding
    is that of the locale, taken to be UTF-8. *)
Definition captured_text (data : bytes) : result str :=
  match utf8_decode_strict data with
  | Some text => ret (translate_newlines text)
  | None => raise UnicodeDecodeError
  end.

(** [subprocess.run([program], input=..., text=True, capture_output=True,
    timeout=timeout, check=False)]: a child that has not ended when the
    timeout expires is killed and waited for, and [TimeoutExpired] is
    raised.  The output of a child that has ended in time is decoded, the
    standard output first, whatever the exit status. *)
Definition subprocess_run (program : str -> filesystem -> engine_run)
    (input : str) (timeout : Z) (w : world) : world * result CompletedProcess :=
  let run := program input (files w) in
  if Qle_bool (elapsed run) (inject_Z timeout)
  then ({| files := files_left run; executables := executables w;
           children := children w ++ [Exited (exit_status run)] |},
        do out <- captured_text (run_stdout run);
        do err <- captured_text (run_stderr run);
        ret {| returncode := exit_status run;
               completed_stdout := out;
               completed_stderr := err |})
  else ({| files := files_left run; executables := executables w;
           children := children w ++ [Killed] |},
        raise (TimeoutExpired timeout)).

(** Leaving [with tempfile.TemporaryDirectory(...)]: the directory and all
    that is in it are removed. *)
Definition remove_tree (dir : str) (w : world) : world :=
  {| files := filter (fun entry => startswith (fst entry) (dir ++ u "/") = false) (files w);
     executables := executables w;
     children := children w |}.

Definition with_files (fs : filesystem) (w : world) : world :=
  {| files := fs; executables := executables w; children := children w |}.

Definition run_transformation (env : environment) (payload : TransformationRequest)
    (timeout : Z) (w : world) : world * result HTDPExecution :=
  match ensure_binary_exists env w with
  | inl e => (w, inl e)
  | inr _ =>
      let tmp_path := mkdtemp env (u "htdp_") w in
      let input_file := path_join tmp_path "points.txt" in
      let output_file := path_join tmp_path "results.txt" in
      let '(w, outcome) :=
        let '(fs, written) := write_input_file (points payload) input_file (files w) in
        let w := with_files fs w in
        match written with
        | inl e => (w, inl e)
        | inr _ =>
            let stdin_script :=
              build_stdin_script output_file (input_frame payload)
                (output_frame payload) (input_epoch payload)
                (output_epoch payload) input_file in
            let '(w, ran) := subprocess_run (htdp env) stdin_script timeout w in
            match ran with
            | inl e => (w, inl e)
            | inr completed =>
                if negb (returncode completed =? 0)%Z
                then (w, raise (RuntimeError (completed_stdout completed)
                                             (completed_stderr completed)))
                else
                  match parse_output_file output_file (files w) with
                  | inl e => (w, inl e)
                  | inr results =>
                      (w, ret {| stdout := completed_stdout completed;
                                 stderr := completed_stderr completed;
                                 results := results |})
                  end
            end
        end in
      (remove_tree tmp_path w, outcome)
  end.

(** ** Service layer ([main.py]) *)

(** The [/transform] handler: [run_transformation] with its default
    timeout, and the [except] clauses in source order. *)
Definition transform (env : environment) (request : TransformationRequest)
    (w : world) : world * result HTDPExecution :=
  let '(w, outcome) := run_transformation env request 60 w in
  match outcome with
  | inr execution => (w, ret execution)
  | inl exc =>
      if is_ValueError exc then (w, raise (HTTPException 400 exc))
      else
        match exc with
        | FileNotFoundError _ | PermissionError _ => (w, raise (HTTPException 500 exc))
        | RuntimeError _ _ => (w, raise (HTTPException 500 exc))
        | _ => (w, raise exc)
        end
  end.

(** ** Frame listing *)

(** [sorted(items, key=lambda item: item[0])]: a stable sort by index,
    here by insertion. *)
Fixpoint insert_by_index (item : Z * str) (sorted : list (Z * str))
  : list (Z * str) :=
  match sorted with
  | [] => [item]
  | x :: rest =>
      if (fst item <? fst x)%Z then item :: sorted
      else x :: insert_by_index item rest
  end.

Definition sorted_by_index (items : list (Z * str)) : list (Z * str) :=
  fold_left (fun sorted item => insert_by_index item sorted) items [].

Definition list_frames : list (Z * str) := sorted_by_index FRAME_MENU.

(** An element of the list the [/frames] handler returns. *)
Record frame_entry := {
  index : Z;
  label : str
}.

Definition frames : list frame_entry :=
  map (fun item => {| index := fst item; label := snd item |}) list_frames.

(** ** Reference notions used in the statements below *)

(** The keys one catalog entry registers: its whole label, its leading
    word, and what precedes "(" when the label has one. *)
Definition alias_keys (label : str) : list str :=
  [_normalise_label label]
  ++ match split label with
     | short_label :: _ => [_normalise_label short_label]
     | [] => []
     end
  ++ (if contains 0x28 label then [_normalise_label (before_first 0x28 label)] else []).

(** The index of the first entry of [menu], in order, that registers [key]. *)
Definition first_registration (menu : list (Z * str)) (key : str) : option Z :=
  fst <$> List.find (fun entry => existsb (str_eqb key) (alias_keys (snd entry))) menu.

(** No entry's whole label, once normalised, is a key that [seen] or an
    earlier entry of [menu] holds. *)
Fixpoint no_clobber (seen : list str) (menu : list (Z * str)) : bool :=
  match menu with
  | [] => true
  | (_, label) :: rest =>
      negb (existsb (str_eqb (_normalise_label label)) seen)
      && no_clobber (alias_keys label ++ seen) rest
  end.

Definition result_eqb (a b : result Z) : bool :=
  match a, b with
  | inr x, inr y => (x =? y)%Z
  | _, _ => false
  end.

(** The keys of a map built so far all occur in [seen]. *)
Definition covers (seen : list str) (aliases : gmap str Z) : Prop :=
  forall k, is_Some (aliases !! k) -> k ∈ seen.

Definition succeeded {A} (r : result A) : bool :=
  match r with
  | inr _ => true
  | inl _ => false
  end.

(** The point of the end-to-end scenario. *)
Definition denver : TransformationPoint :=
  {| name := u "Denver";
     latitude := float_lit "39.0";
     longitude := float_lit "-104.0";
     ellipsoid_height := float_lit "1600.0" |}.

Definition newline : byte := byte_of 0x0A.

(** A line "begins with a banner marker". *)
Definition begins_with_banner (s : str) : bool :=
  startswith s (u "TRANSFORMING") || startswith s (u "***").

Definition parses_as_float (token : str) : bool := succeeded (float_of_str token).

(** Noise, in the words of the decoder's description: a line that is
    empty, begins with a banner marker, has fewer than four tokens, or
    whose first three tokens do not all read as floating point. *)
Definition is_noise (line : str) : bool :=
  let stripped := strip line in
  let parts := split stripped in
  match stripped with [] => true | _ => false end
  || begins_with_banner line
  || begins_with_banner stripped
  || (length parts <? 4)%nat
  || negb (forallb parses_as_float (firstn 3 parts)).

(** The result a data line stands for: three numbers, then the name. *)
Definition data_row (line : str) : option TransformationResult :=
  match split (strip line) with
  | p0 :: p1 :: p2 :: n :: ns =>
      match float_of_str p0, float_of_str p1, float_of_str p2 with
      | inr lat, inr lon_west, inr height =>
          Some {| result_name := join (u " ") (n :: ns);
                  result_latitude := lat;
                  result_longitude := float_neg lon_west;
                  result_ellipsoid_height := height |}
      | _, _, _ => None
      end
  | _ => None
  end.

(** The results of the lines that are not noise, in order. *)
Definition decoded_rows (lines : list str) : list TransformationResult :=
  flat_map (fun line =>
              if is_noise line then []
              else match data_row line with Some r => [r] | None => [] end)
           lines.

(** The files and the run [run_transformation] hands to the binary. *)
Definition invoked_input_file (env : environment) (w : world) : str :=
  path_join (mkdtemp env (u "htdp_") w) "points.txt".

Definition invoked_output_file (env : environment) (w : world) : str :=
  path_join (mkdtemp env (u "htdp_") w) "results.txt".

Definition invoked_run (env : environment) (payload : TransformationRequest)
    (w : world) : engine_run :=
  htdp env
    (build_stdin_script (invoked_output_file env w) (input_frame payload)
       (output_frame payload) (input_epoch payload) (output_epoch payload)
       (invoked_input_file env w))
    (fst (write_input_file (points payload) (invoked_input_file env w) (files w))).

(** A binary that needs 61 seconds and changes nothing, an installation
    that has it, and the request of the end-to-end scenario. *)
Definition slow_env : environment :=
  {| REPO_ROOT := u "/srv/htdp";
     mkdtemp := fun prefix _ => u "/tmp/" ++ prefix ++ u "k3x9";
     htdp := fun _ fs =>
       {| elapsed := 61 # 1; exit_status := 0; run_stdout := []; run_stderr := [];
          files_left := fs |} |}.

Definition installed : world :=
  {| files := {[ u "/srv/htdp/htdp" := [] ]};
     executables := {[ u "/srv/htdp/htdp" ]};
     children := [] |}.

Definition denver_request : TransformationRequest :=
  {| input_frame := 1;
     output_frame := 25;
     input_epoch := float_lit "2005.0";
     output_epoch := float_lit "2020.0";
     points := [denver] |}.

(** A lower-case ASCII letter turned into its upper-case form. *)
Definition ascii_upper (c : N) : N := if between 0x61 0x7A c then c - 32 else c.

Definition is_exn_ValueError (e : exn) : Prop := exists payload, e = ValueError payload.

(** A binary that ends at once with status 3 and a message, and one that
    ends at once with status 0 after writing one data line to the file
    named in the second line of its input. *)
Definition failing_env : environment :=
  {| REPO_ROOT := u "/srv/htdp";
     mkdtemp := fun prefix _ => u "/tmp/" ++ prefix ++ u "k3x9";
     htdp := fun _ fs =>
       {| elapsed := 1 # 2; exit_status := 3; run_stdout := b "HTDP";
          run_stderr := b "bad input"; files_left := fs |} |}.

Definition working_env : environment :=
  {| REPO_ROOT := u "/srv/htdp";
     mkdtemp := fun prefix _ => u "/tmp/" ++ prefix ++ u "k3x9";
     htdp := fun input fs =>
       {| elapsed := 1 # 2; exit_status := 0; run_stdout := b "HTDP";
          run_stderr := [];
          files_left :=
            <[strip (nth 1 (text_lines input) []) :=
                b "39.000000123 104.000000456 1600.0100 Denver" ++ [newline]]> fs |} |}.

(** A binary that ends at once with status 0 and writes nothing. *)
Definition silent_env : environment :=
  {| REPO_ROOT := u "/srv/htdp";
     mkdtemp := fun prefix _ => u "/tmp/" ++ prefix ++ u "k3x9";
     htdp := fun _ fs =>
       {| elapsed := 1 # 2; exit_status := 0; run_stdout := []; run_stderr := [];
          files_left := fs |} |}.

(** A binary that ends at once with status 0 after writing the same data
    line, and prints a byte that is not UTF-8. *)
Definition garbling_env : environment :=
  {| REPO_ROOT := u "/srv/htdp";
     mkdtemp := fun prefix _ => u "/tmp/" ++ prefix ++ u "k3x9";
     htdp := fun input fs =>
       {| elapsed := 1 # 2; exit_status := 0; run_stdout := b "HTDP" ++ [xff];
          run_stderr := [];
          files_left :=
            <[strip (nth 1 (text_lines input) []) :=
                b "39.000000123 104.000000456 1600.0100 Denver" ++ [newline]]> fs |} |}.

(** A token: not empty and free of whitespace. *)
Definition is_token (t : str) : bool :=
  negb (length t =? 0)%nat && forallb (fun c => negb (isspace c)) t.

(** Free of line breaks. *)
Definition no_line_break (s : str) : bool :=
  forallb (fun c => negb ((c =? 0x0A) || (c =? 0x0D))) s.

(** A character [str.encode("utf-8")] accepts: not a surrogate. *)
Definition encodable (c : N) : bool :=
  negb (between 0xD800 0xDFFF c) && (c <? 0x110000).

(** A printable ASCII character. *)
Definition printable (c : N) : bool := between 0x20 0x7E c.

(** ASCII text free of line breaks. *)
Definition plain_text (s : str) : bool :=
  forallb (fun c => c <? 0x80) s && no_line_break s.

(** The text of a point's line before its newline. *)
Definition point_text (point : TransformationPoint) : str :=
  format_f 12 (latitude point) ++ u "," ++ format_f 12 (float_neg (longitude point))
  ++ u "," ++ format_f 4 (ellipsoid_height point) ++ u "," ++ name point.

(** [s.split(c, 1)[1]] for a one-character separator that occurs in [s]:
    the text after its first occurrence. *)
Definition after_first (c : N) (s : str) : str :=
  tl (dropwhile (fun x => negb (x =? c)) s).


(** * Properties *)

(** ** Text *)

Lemma str_eqb_eq (a b : str) : str_eqb a b = true <-> a = b.
Proof.
  revert b. induction a as [|x a IH]; intros [|y b]; simpl; split; try easy.
  - rewrite andb_true_iff, N.eqb_eq, IH. now intros [-> ->].
  - intros [= -> ->]. rewrite N.eqb_refl. now apply IH.
Qed.

Lemma existsb_str_eqb (key : str) (keys : list str) :
  existsb (str_eqb key) keys = true <-> key ∈ keys.
Proof.
  rewrite existsb_exists, list_elem_of_In. split.
  - intros (k & Hin & Heq). apply str_eqb_eq in Heq. now subst.
  - intros Hin. exists key. split; [assumption | now apply str_eqb_eq].
Qed.

Lemma result_eqb_eq (a b : result Z) : result_eqb a b = true -> a = b.
Proof.
  destruct a, b; simpl; try discriminate. intros H. apply Z.eqb_eq in H. now subst.
Qed.

(** ** Frame registry *)

Lemma setdefault_lookup (k : str) (v : Z) (d : gmap str Z) (key : str) :
  setdefault k v d !! key =
  match d !! key with
  | Some x => Some x
  | None => if decide (key = k) then Some v else None
  end.
Proof.
  unfold setdefault. destruct (d !! k) eqn:Ek.
  - destruct (d !! key) eqn:Ekey; [reflexivity |].
    destruct (decide (key = k)); [congruence | reflexivity].
  - destruct (decide (key = k)) as [-> | Hne].
    + now rewrite lookup_insert_eq, Ek.
    + rewrite lookup_insert_ne by congruence. now destruct (d !! key).
Qed.

Lemma setdefault_subseteq (k : str) (v : Z) (d : gmap str Z) : d ⊆ setdefault k v d.
Proof.
  unfold setdefault. destruct (d !! k) eqn:Ek; [reflexivity |].
  now apply insert_subseteq.
Qed.

(** What one iteration of the loop leaves under [key], provided the whole
    label is a new key. *)
Lemma register_aliases_lookup (aliases aliases' : gmap str Z) (idx : Z)
    (label key : str) :
  register_aliases aliases (idx, label) = inr aliases' ->
  aliases !! _normalise_label label = None ->
  aliases' !! key =
  match aliases !! key with
  | Some v => Some v
  | None => if existsb (str_eqb key) (alias_keys label) then Some idx else None
  end.
Proof.
  unfold register_aliases, alias_keys. intros Hreg Hnew.
  destruct (split label) as [|short_label others]; [discriminate |].
  assert (Hfull : forall k : str,
    (<[_normalise_label label := idx]> aliases) !! k =
    match aliases !! k with
    | Some v => Some v
    | None => if str_eqb k (_normalise_label label) then Some idx else None
    end).
  { intros k. destruct (decide (k = _normalise_label label)) as [-> | Hne].
    - rewrite lookup_insert_eq, Hnew.
      now rewrite (proj2 (str_eqb_eq _ _) eq_refl).
    - rewrite lookup_insert_ne by congruence.
      destruct (aliases !! k); [reflexivity |].
      destruct (str_eqb k (_normalise_label label)) eqn:E; [| reflexivity].
      apply str_eqb_eq in E. contradiction. }
  assert (Hdec : forall a b : str,
    (if decide (a = b) then Some idx else None) =
    (if str_eqb a b then Some idx else @None Z)).
  { intros a b. destruct (decide (a = b)) as [-> | Hne].
    - now rewrite (proj2 (str_eqb_eq _ _) eq_refl).
    - destruct (str_eqb a b) eqn:E; [| reflexivity].
      apply str_eqb_eq in E. contradiction. }
  destruct (contains 40 label); injection Hreg as <-; simpl;
    rewrite ?setdefault_lookup, Hfull, ?Hdec;
    destruct (aliases !! key); try reflexivity;
    destruct (str_eqb key (_normalise_label label));
    destruct (str_eqb key (_normalise_label short_label));
    try destruct (str_eqb key (_normalise_label (before_first 40 label)));
    reflexivity.
Qed.

Lemma register_aliases_subseteq (aliases aliases' : gmap str Z) (idx : Z)
    (label : str) :
  register_aliases aliases (idx, label) = inr aliases' ->
  aliases !! _normalise_label label = None ->
  aliases ⊆ aliases'.
Proof.
  intros Hreg Hnew. apply map_subseteq_spec. intros k v Hk.
  rewrite (register_aliases_lookup _ _ _ _ k Hreg Hnew). now rewrite Hk.
Qed.

Lemma covers_fresh (seen : list str) (aliases : gmap str Z) (k : str) :
  covers seen aliases -> existsb (str_eqb k) seen = false -> aliases !! k = None.
Proof.
  intros Hcov Hnot. destruct (aliases !! k) eqn:E; [| reflexivity].
  assert (Hin : k ∈ seen) by (apply Hcov; rewrite E; eauto).
  apply existsb_str_eqb in Hin. congruence.
Qed.

Lemma covers_step (seen : list str) (aliases aliases' : gmap str Z) (idx : Z)
    (label : str) :
  covers seen aliases ->
  register_aliases aliases (idx, label) = inr aliases' ->
  aliases !! _normalise_label label = None ->
  covers (alias_keys label ++ seen) aliases'.
Proof.
  intros Hcov Hreg Hnew k [v Hk].
  rewrite (register_aliases_lookup _ _ _ _ k Hreg Hnew) in Hk.
  apply elem_of_app. destruct (aliases !! k) eqn:E.
  - right. apply Hcov. rewrite E. eauto.
  - left. destruct (existsb (str_eqb k) (alias_keys label)) eqn:Ex; [| discriminate].
    now apply existsb_str_eqb.
Qed.

(** First registration wins, for any catalog in which no whole label
    collides with a key registered before it. *)
Lemma build_aliases_first_wins (menu : list (Z * str)) :
  forall (seen : list str) (aliases final : gmap str Z) (key : str),
    covers seen aliases ->
    no_clobber seen menu = true ->
    build_aliases aliases menu = inr final ->
    final !! key =
    match aliases !! key with
    | Some v => Some v
    | None => first_registration menu key
    end.
Proof.
  induction menu as [|[idx label] rest IH]; intros seen aliases final key Hcov Hnc Hbuild.
  - injection Hbuild as <-. now destruct (aliases !! key).
  - cbn [no_clobber] in Hnc. apply andb_true_iff in Hnc as [Hfresh Hrest].
    apply negb_true_iff in Hfresh.
    pose proof (covers_fresh _ _ _ Hcov Hfresh) as Hnew.
    cbn [build_aliases] in Hbuild. unfold bind in Hbuild.
    destruct (register_aliases aliases (idx, label)) as [e | aliases'] eqn:Hreg;
      [discriminate |].
    rewrite (IH _ _ _ key (covers_step _ _ _ _ _ Hcov Hreg Hnew) Hrest Hbuild).
    rewrite (register_aliases_lookup _ _ _ _ key Hreg Hnew).
    unfold first_registration. cbn [List.find snd].
    destruct (aliases !! key); [reflexivity |].
    now destruct (existsb (str_eqb key) (alias_keys label)).
Qed.

(** Under the same condition every iteration only adds mappings. *)
Lemma build_aliases_monotone (before : list (Z * str)) :
  forall (seen : list str) (aliases : gmap str Z) (entry : Z * str)
         (after : list (Z * str)) (final : gmap str Z),
    covers seen aliases ->
    no_clobber seen (before ++ entry :: after) = true ->
    build_aliases aliases (before ++ entry :: after) = inr final ->
    exists reached reached' : gmap str Z,
      build_aliases aliases before = inr reached
      /\ reached !! _normalise_label (snd entry) = None
      /\ register_aliases reached entry = inr reached'
      /\ reached ⊆ reached'.
Proof.
  induction before as [|[idx label] before IH];
    intros seen aliases entry after final Hcov Hnc Hbuild.
  - destruct entry as [idx label]. cbn [app no_clobber snd] in *.
    apply andb_true_iff in Hnc as [Hfresh _]. apply negb_true_iff in Hfresh.
    pose proof (covers_fresh _ _ _ Hcov Hfresh) as Hnew.
    cbn [build_aliases] in Hbuild. unfold bind in Hbuild.
    destruct (register_aliases aliases (idx, label)) as [e | aliases'] eqn:Hreg;
      [discriminate |].
    exists aliases, aliases'. repeat split; try assumption.
    now apply (register_aliases_subseteq _ _ idx label).
  - cbn [app no_clobber] in Hnc. apply andb_true_iff in Hnc as [Hfresh Hrest].
    apply negb_true_iff in Hfresh.
    pose proof (covers_fresh _ _ _ Hcov Hfresh) as Hnew.
    cbn [app build_aliases] in Hbuild. unfold bind in Hbuild.
    cbn [app build_aliases]. unfold bind.
    destruct (register_aliases aliases (idx, label)) as [e | aliases'] eqn:Hreg;
      [discriminate |].
    exact (IH _ _ _ _ _ (covers_step _ _ _ _ _ Hcov Hreg Hnew) Hrest Hbuild).
Qed.

Lemma frame_aliases_built : build_aliases ∅ FRAME_MENU = inr _frame_aliases.
Proof.
  assert (Hok : succeeded (build_aliases ∅ FRAME_MENU) = true)
    by (vm_compute; reflexivity).
  unfold _frame_aliases.
  generalize dependent (build_aliases ∅ FRAME_MENU).
  intros r Hr. destruct r; [discriminate | reflexivity].
Qed.

Lemma frame_menu_no_clobber : no_clobber [] FRAME_MENU = true.
Proof. vm_compute. reflexivity. Qed.

Lemma covers_empty : covers [] ∅.
Proof. intros k [v Hk]. rewrite lookup_empty in Hk. discriminate. Qed.

(** A property checked on every entry of a map holds of every lookup. *)
Lemma map_forallb (m : gmap str Z) (P : str -> Z -> bool) :
  forallb (fun kv => P (fst kv) (snd kv)) (map_to_list m) = true ->
  forall k i, m !! k = Some i -> P k i = true.
Proof.
  intros Hall k i Hk. rewrite forallb_forall in Hall.
  apply (Hall (k, i)). apply list_elem_of_In. apply elem_of_map_to_list. exact Hk.
Qed.

Lemma frame_aliases_in_menu (key : str) (idx : Z) :
  _frame_aliases !! key = Some idx -> in_menu FRAME_MENU idx = true.
Proof.
  apply (map_forallb _frame_aliases (fun _ i => in_menu FRAME_MENU i)).
  vm_compute. reflexivity.
Qed.

Lemma frame_aliases_resolve (key : str) (idx : Z) :
  _frame_aliases !! key = Some idx -> resolve_frame (FStr key) = inr idx.
Proof.
  intros Hk. apply result_eqb_eq. revert key idx Hk.
  apply (map_forallb _frame_aliases
           (fun k i => result_eqb (resolve_frame (FStr k)) (inr i))).
  vm_compute. reflexivity.
Qed.

Lemma in_menu_range (i : Z) : in_menu FRAME_MENU i = true <-> (1 <= i <= 26)%Z.
Proof.
  unfold in_menu, FRAME_MENU. cbn [menu_get].
  repeat match goal with
         | |- context [(i =? ?k)%Z] => destruct (Z.eqb_spec i k)
         end; split; intros; try lia; try discriminate; reflexivity.
Qed.

Lemma resolve_index_ok (i j : Z) :
  resolve_index i = inr j -> i = j /\ in_menu FRAME_MENU j = true.
Proof.
  unfold resolve_index. destruct (in_menu FRAME_MENU i) eqn:E; [| discriminate].
  intros [= <-]. now split.
Qed.

Lemma resolve_index_in_menu (i : Z) :
  in_menu FRAME_MENU i = true -> resolve_index i = inr i.
Proof. unfold resolve_index. now intros ->. Qed.

Lemma resolve_digit_string (i : Z) :
  (1 <= i <= 26)%Z -> resolve_frame (FStr (str_of_int i)) = inr i.
Proof.
  intros Hi.
  assert (Hall : forallb (fun n => result_eqb
                   (resolve_frame (FStr (str_of_int (Z.of_nat n))))
                   (inr (Z.of_nat n))) (seq 1 26) = true)
    by (vm_compute; reflexivity).
  rewrite forallb_forall in Hall.
  specialize (Hall (Z.to_nat i)). rewrite Z2Nat.id in Hall by lia.
  apply result_eqb_eq, Hall, in_seq. lia.
Qed.

(** What [resolve_frame] does with a text that is neither blank nor made
    of digits. *)
Lemma resolve_frame_text (value : str) :
  strip value <> [] -> isdigit (strip value) = false ->
  resolve_frame (FStr value) =
  match _frame_aliases !! _normalise_label (strip value) with
  | Some idx => inr idx
  | None => inl (ValueError (UnrecognisedFrame value))
  end.
Proof.
  intros Hne Hdig. unfold resolve_frame.
  destruct (strip value) as [|c text]; [congruence |].
  now rewrite Hdig.
Qed.

Lemma resolve_frame_digits (value : str) :
  isdigit (strip value) = true ->
  resolve_frame (FStr value) = bind (int_of_str (strip value)) resolve_index.
Proof.
  intros Hdig. unfold resolve_frame.
  destruct (strip value) as [|c text]; [discriminate |].
  now rewrite Hdig.
Qed.

Lemma normalise_label_alnum (value : str) :
  Forall (fun c => is_a_z_0_9 c = true) (_normalise_label value).
Proof.
  unfold _normalise_label, re_sub_non_alnum. apply Forall_forall.
  intros c Hc. apply list_elem_of_In, filter_In in Hc. tauto.
Qed.

(** C2. The alias index is built first-registration-wins: under every
    normalised key the index stored is that of the first catalog entry, in
    catalog order, that registers the key (as whole label, leading word or
    text before a parenthesis); while the index is being built no entry
    changes a mapping that was there before it (its whole label is a new
    key, and what it leaves contains what it found); and resolving any key
    of the index yields the index stored under it. *)
Theorem alias_index_first_registration_wins :
  (forall key : str, _frame_aliases !! key = first_registration FRAME_MENU key)
  /\ (forall (before : list (Z * str)) (entry : Z * str) (after : list (Z * str)),
        FRAME_MENU = before ++ entry :: after ->
        exists reached reached' : gmap str Z,
          build_aliases ∅ before = inr reached
          /\ reached !! _normalise_label (snd entry) = None
          /\ register_aliases reached entry = inr reached'
          /\ reached ⊆ reached')
  /\ (forall (key : str) (idx : Z),
        _frame_aliases !! key = Some idx -> resolve_frame (FStr key) = inr idx).
Proof.
  split; [| split].
  - intros key.
    pose proof (build_aliases_first_wins FRAME_MENU [] ∅ _frame_aliases key
                  covers_empty frame_menu_no_clobber frame_aliases_built) as H.
    rewrite lookup_empty in H. exact H.
  - intros before entry after Hsplit.
    apply (build_aliases_monotone before [] ∅ entry after _frame_aliases covers_empty).
    + rewrite <- Hsplit. exact frame_menu_no_clobber.
    + rewrite <- Hsplit. exact frame_aliases_built.
  - exact frame_aliases_resolve.
Qed.

(** C7. Frame resolution ignores case and punctuation: "itrf2014",
    "ITRF2014" and "itrf-2014" all resolve, to the same index as the
    number 25, because a text that is neither blank nor a run of digits is
    looked up under its normalised form, which keeps only lower-case
    letters and digits. *)
Theorem resolve_frame_ignores_case_and_punctuation :
  resolve_frame (FInt 25) = inr 25%Z
  /\ resolve_frame (FStr (u "itrf2014")) = resolve_frame (FInt 25)
  /\ resolve_frame (FStr (u "ITRF2014")) = resolve_frame (FInt 25)
  /\ resolve_frame (FStr (u "itrf-2014")) = resolve_frame (FInt 25)
  /\ _normalise_label (u "ITRF2014") = u "itrf2014"
  /\ _normalise_label (u "itrf-2014") = u "itrf2014"
  /\ (forall value : str,
        Forall (fun c => is_a_z_0_9 c = true) (_normalise_label value))
  /\ (forall value : str,
        strip value <> [] -> isdigit (strip value) = false ->
        resolve_frame (FStr value) =
        match _frame_aliases !! _normalise_label (strip value) with
        | Some idx => inr idx
        | None => inl (ValueError (UnrecognisedFrame value))
        end).
Proof.
  split; [vm_compute; reflexivity |].
  split; [vm_compute; reflexivity |].
  split; [vm_compute; reflexivity |].
  split; [vm_compute; reflexivity |].
  split; [vm_compute; reflexivity |].
  split; [vm_compute; reflexivity |].
  split; [exact normalise_label_alnum | exact resolve_frame_text].
Qed.

(** C10. Every successful resolution returns a key of the 26-entry
    catalog, an integer from 1 to 26, and resolving that index again, as a
    number or as its decimal text, returns it unchanged. *)
Theorem resolve_frame_in_catalog_and_idempotent (value : frame_id) (i : Z) :
  resolve_frame value = inr i ->
  (1 <= i <= 26)%Z
  /\ In i (map fst FRAME_MENU)
  /\ length FRAME_MENU = 26%nat
  /\ resolve_frame (FInt i) = inr i
  /\ resolve_frame (FStr (str_of_int i)) = inr i.
Proof.
  intros Hres.
  assert (Hin : in_menu FRAME_MENU i = true).
  { destruct value as [j | text].
    - now apply resolve_index_ok in Hres.
    - destruct (strip text) as [|c rest] eqn:Estrip.
      + unfold resolve_frame in Hres. rewrite Estrip in Hres. discriminate.
      + destruct (isdigit (strip text)) eqn:Edig.
        * rewrite (resolve_frame_digits _ Edig) in Hres. unfold bind in Hres.
          destruct (int_of_str (strip text)) as [e | j]; [discriminate |].
          now apply resolve_index_ok in Hres.
        * rewrite resolve_frame_text in Hres by (assumption || congruence).
          destruct (_frame_aliases !! _normalise_label (strip text)) as [idx |] eqn:Ek;
            [| discriminate].
          injection Hres as <-. exact (frame_aliases_in_menu _ _ Ek). }
  pose proof (proj1 (in_menu_range i) Hin) as Hrange.
  split; [exact Hrange |]. split; [| split; [reflexivity | split]].
  - assert (Hkeys : map fst FRAME_MENU = map Z.of_nat (seq 1 26)) by reflexivity.
    rewrite Hkeys. apply in_map_iff. exists (Z.to_nat i). split; [lia |].
    apply in_seq. lia.
  - exact (resolve_index_in_menu i Hin).
  - exact (resolve_digit_string i Hrange).
Qed.

Lemma resolve_frame_in_catalog_and_idempotent_witness :
  resolve_frame (FStr (u "WGS84 original (Transit)")) = inr 5%Z
  /\ (1 <= 5 <= 26)%Z
  /\ In 5%Z (map fst FRAME_MENU)
  /\ length FRAME_MENU = 26%nat
  /\ resolve_frame (FInt 5) = inr 5%Z
  /\ resolve_frame (FStr (str_of_int 5)) = inr 5%Z.
Proof.
  assert (H : resolve_frame (FStr (u "WGS84 original (Transit)")) = inr 5%Z)
    by (vm_compute; reflexivity).
  split; [exact H |].
  exact (resolve_frame_in_catalog_and_idempotent _ _ H).
Defined.

(** ** Text: stripping and prefixes *)

Lemma startswith_app (s p : str) :
  startswith s p = true <-> exists rest, s = p ++ rest.
Proof.
  revert s. induction p as [|a p IH]; intros s.
  - split; [intros _; now exists s | intros _; now destruct s].
  - destruct s as [|c s]; simpl.
    + split; [discriminate | intros [rest [=]]].
    + rewrite andb_true_iff, N.eqb_eq, IH. split.
      * intros [-> [rest ->]]. now exists rest.
      * intros [rest [= -> ->]]. split; [reflexivity | now exists rest].
Qed.

Lemma dropwhile_app (f : N -> bool) (a c : str) :
  dropwhile f (a ++ c) =
  match dropwhile f a with
  | [] => dropwhile f c
  | kept => kept ++ c
  end.
Proof.
  induction a as [|x a IH]; simpl.
  - now destruct (dropwhile f c).
  - destruct (f x); [exact IH | reflexivity].
Qed.

(** Stripping keeps a prefix that starts and ends with characters other
    than whitespace. *)
Lemma strip_keeps_prefix (first last : N) (middle rest : str) :
  isspace first = false -> isspace last = false ->
  exists rest',
    strip ((first :: middle ++ [last]) ++ rest) = (first :: middle ++ [last]) ++ rest'.
Proof.
  intros Hfirst Hlast. unfold strip, strip_with.
  exists (rev (dropwhile isspace (rev rest))).
  assert (Hl : dropwhile isspace ((first :: middle ++ [last]) ++ rest)
               = (first :: middle ++ [last]) ++ rest)
    by (simpl; now rewrite Hfirst).
  rewrite Hl, rev_app_distr, dropwhile_app.
  assert (Hr : dropwhile isspace (rev (first :: middle ++ [last]))
               = rev (first :: middle ++ [last])).
  { change (first :: middle ++ [last]) with ((first :: middle) ++ [last]).
    rewrite rev_app_distr. simpl. now rewrite Hlast. }
  destruct (dropwhile isspace (rev rest)) as [|x kept] eqn:E.
  - rewrite Hr, rev_involutive. simpl. now rewrite app_nil_r.
  - rewrite rev_app_distr, rev_involutive. reflexivity.
Qed.

Lemma banner_survives_strip (line : str) :
  begins_with_banner line = true -> begins_with_banner (strip line) = true.
Proof.
  unfold begins_with_banner. intros H. apply orb_true_iff in H.
  apply orb_true_iff. destruct H as [H | H]; [left | right];
    apply startswith_app in H as [rest ->]; apply startswith_app.
  - apply (strip_keeps_prefix 0x54 0x47 (u "RANSFORMIN") rest); reflexivity.
  - apply (strip_keeps_prefix 0x2A 0x2A [0x2A] rest); reflexivity.
Qed.

(** ** Floats as text *)


(** [float()] raises nothing but [ValueError]. *)
Lemma float_of_str_error (s : str) (e : exn) :
  float_of_str s = inl e -> is_ValueError e = true.
Proof.
  unfold float_of_str, raise, ret.
  destruct (to_ascii_decimal s) as [a |]; [| now intros [= <-]].
  destruct (remove_underscores 0 a) as [a' |]; [| now intros [= <-]].
  destruct (split_sign (strip_with c_isspace a')) as [negative body].
  destruct (parse_decimal negative body); [discriminate |].
  destruct (parse_inf_or_nan negative body); [discriminate |].
  now intros [= <-].
Qed.

(** ** Output decoder *)

(** The loop body, line by line: noise gives nothing, any other line its
    data row; no line makes it fail. *)
Lemma parse_line_spec (line : str) :
  parse_line line = inr (if is_noise line then None else data_row line).
Proof.
  unfold parse_line, is_noise, data_row.
  destruct (strip line) as [|c stripped] eqn:Estrip; [reflexivity |].
  cbn [orb].
  destruct (begins_with_banner line) eqn:Eraw.
  { apply banner_survives_strip in Eraw. rewrite Estrip in Eraw.
    unfold begins_with_banner in Eraw. now rewrite Eraw. }
  cbn [orb]. fold (begins_with_banner (c :: stripped)).
  destruct (begins_with_banner (c :: stripped)); [reflexivity |].
  cbn [orb].
  destruct (split (c :: stripped)) as [|p0 [|p1 [|p2 [|n ns]]]]; try reflexivity.
  cbn [length Nat.ltb Nat.leb orb firstn forallb item nth_error skipn].
  unfold parses_as_float, succeeded, bind, ret, raise.
  destruct (float_of_str p0) as [e0 | lat] eqn:E0; cbn [andb negb].
  { now rewrite (float_of_str_error _ _ E0). }
  destruct (float_of_str p1) as [e1 | lon] eqn:E1; cbn [andb negb].
  { now rewrite (float_of_str_error _ _ E1). }
  destruct (float_of_str p2) as [e2 | h] eqn:E2; cbn [andb negb].
  { now rewrite (float_of_str_error _ _ E2). }
  reflexivity.
Qed.

Lemma parse_line_noise (line : str) :
  is_noise line = true -> parse_line line = inr None.
Proof. intros H. now rewrite parse_line_spec, H. Qed.

(** The whole loop: it never fails, and appends the rows of the lines
    that are not noise. *)
Lemma parse_lines_spec (lines : list str) :
  forall results, parse_lines lines results = inr (results ++ decoded_rows lines).
Proof.
  induction lines as [|line rest IH]; intros results; simpl.
  - now rewrite app_nil_r.
  - rewrite parse_line_spec. unfold bind.
    destruct (is_noise line); [apply IH |].
    destruct (data_row line) as [r |]; [| apply IH].
    rewrite IH. now rewrite <- app_assoc.
Qed.

Lemma decoded_rows_filter (lines : list str) :
  decoded_rows (List.filter (fun l => negb (is_noise l)) lines) = decoded_rows lines.
Proof.
  induction lines as [|line rest IH]; [reflexivity |]. simpl.
  destruct (is_noise line) eqn:E; simpl; [exact IH |].
  rewrite E. now rewrite IH.
Qed.

Lemma decoded_rows_all_noise (lines : list str) :
  forallb is_noise lines = true -> decoded_rows lines = [].
Proof.
  induction lines as [|line rest IH]; [reflexivity |]. simpl.
  intros H. apply andb_true_iff in H as [-> Hrest]. now apply IH.
Qed.

Lemma parse_output_file_existing (path : str) (fs : filesystem) (data : bytes) :
  fs !! path = Some data ->
  parse_output_file path fs = inr (decoded_rows (text_lines (utf8_decode_ignore data))).
Proof.
  intros Hfile. unfold parse_output_file. rewrite Hfile. apply parse_lines_spec.
Qed.

Lemma parse_output_file_missing (path : str) (fs : filesystem) :
  fs !! path = None ->
  parse_output_file path fs = inl (FileNotFoundError (OutputNotCreated path)).
Proof. intros Hfile. unfold parse_output_file. now rewrite Hfile. Qed.

(** C5. The decoder is lenient.  For a file that exists, decoding does not
    fail; lines that are noise (empty, beginning with a banner marker,
    with fewer than four tokens, or whose first three tokens do not all
    read as floating point) are passed over, each giving no result, so
    that the outcome is that of the file without them; and a file of
    noise only, such as one of banner lines, decodes to the empty list. *)
Theorem noise_lines_are_skipped (path : str) (fs : filesystem) (data : bytes) :
  fs !! path = Some data ->
  (exists results, parse_output_file path fs = inr results)
  /\ (forall line, In line (text_lines (utf8_decode_ignore data)) ->
        is_noise line = true -> parse_line line = inr None)
  /\ parse_output_file path fs =
     parse_lines (List.filter (fun l => negb (is_noise l))
                    (text_lines (utf8_decode_ignore data))) []
  /\ (forallb is_noise (text_lines (utf8_decode_ignore data)) = true ->
        parse_output_file path fs = inr []).
Proof.
  intros Hfile. rewrite (parse_output_file_existing _ _ _ Hfile).
  split; [eauto |]. split; [intros line _; apply parse_line_noise |]. split.
  - now rewrite parse_lines_spec, decoded_rows_filter.
  - intros Hnoise. now rewrite decoded_rows_all_noise.
Qed.

Definition banner_file : bytes :=
  b "*** HTDP ***" ++ [newline] ++ b "*** output ***" ++ [newline]
  ++ b "***" ++ [newline].

Lemma noise_lines_are_skipped_witness :
  ({[ u "results.txt" := banner_file ]} : filesystem) !! u "results.txt"
  = Some banner_file
  /\ forallb is_noise (text_lines (utf8_decode_ignore banner_file)) = true
  /\ parse_output_file (u "results.txt") {[ u "results.txt" := banner_file ]} = inr [].
Proof.
  assert (Hfile : ({[ u "results.txt" := banner_file ]} : filesystem)
                  !! u "results.txt" = Some banner_file)
    by apply lookup_singleton_eq.
  assert (Hnoise : forallb is_noise (text_lines (utf8_decode_ignore banner_file)) = true)
    by (vm_compute; reflexivity).
  split; [exact Hfile |]. split; [exact Hnoise |].
  exact (proj2 (proj2 (proj2
           (noise_lines_are_skipped (u "results.txt") _ banner_file Hfile))) Hnoise).
Defined.

(** C6. Decoding fails exactly when the output path does not exist, and
    then with [FileNotFoundError] for the file that was not created; a file
    that exists and holds no data row, for instance an empty one, gives the
    empty list and no error. *)
Theorem missing_output_file_iff_path_absent (path : str) (fs : filesystem) :
  (fs !! path = None <->
   parse_output_file path fs = inl (FileNotFoundError (OutputNotCreated path)))
  /\ (forall e, parse_output_file path fs = inl e ->
        fs !! path = None /\ e = FileNotFoundError (OutputNotCreated path))
  /\ (forall data, fs !! path = Some data ->
        decoded_rows (text_lines (utf8_decode_ignore data)) = [] ->
        parse_output_file path fs = inr [])
  /\ parse_output_file path (<[path := []]> fs) = inr [].
Proof.
  destruct (fs !! path) as [data |] eqn:Hfile.
  - pose proof (parse_output_file_existing _ _ _ Hfile) as Hok.
    split; [split; [discriminate | rewrite Hok; discriminate] |].
    split; [intros e He; rewrite Hok in He; discriminate |].
    split; [intros d [= <-] Hrows; now rewrite Hok, Hrows |].
    now rewrite (parse_output_file_existing path _ [] (lookup_insert_eq fs path [])).
  - pose proof (parse_output_file_missing _ _ Hfile) as Hmiss.
    split; [split; [intros _; exact Hmiss | reflexivity] |].
    split; [intros e He; rewrite Hmiss in He; injection He as <-; now split |].
    split; [discriminate |].
    now rewrite (parse_output_file_existing path _ [] (lookup_insert_eq fs path [])).
Qed.

(** C9. The decoder is total on files that exist: whatever bytes the file
    holds, decoding returns a list, the rows of its lines that are not
    noise; the only failure of the decoder is that of a path that does not
    exist. *)
Theorem decoder_total_on_existing_files (path : str) (fs : filesystem)
    (data : bytes) :
  fs !! path = Some data ->
  parse_output_file path fs = inr (decoded_rows (text_lines (utf8_decode_ignore data)))
  /\ (forall e, parse_output_file path fs <> inl e).
Proof.
  intros Hfile. rewrite (parse_output_file_existing _ _ _ Hfile).
  split; [reflexivity | discriminate].
Qed.

(** Bytes that are not UTF-8, a line without end and a data line. *)
Definition garbled_file : bytes :=
  [xff; xfe; xc3; x28; newline] ++ b "1.5 -2.5 3.5 A" ++ [xe2; x82].

Lemma decoder_total_on_existing_files_witness :
  ({[ u "results.txt" := garbled_file ]} : filesystem) !! u "results.txt"
  = Some garbled_file
  /\ parse_output_file (u "results.txt") {[ u "results.txt" := garbled_file ]}
     = inr (decoded_rows (text_lines (utf8_decode_ignore garbled_file)))
  /\ (forall e, parse_output_file (u "results.txt")
                  {[ u "results.txt" := garbled_file ]} <> inl e).
Proof.
  assert (Hfile : ({[ u "results.txt" := garbled_file ]} : filesystem)
                  !! u "results.txt" = Some garbled_file)
    by apply lookup_singleton_eq.
  split; [exact Hfile |].
  exact (decoder_total_on_existing_files (u "results.txt") _ garbled_file Hfile).
Defined.

(** C8. A file holding the single data line
    "40.123456789012 -105.123456789012 1613.2500 StationA", with or
    without a final newline, decodes to exactly one result: name
    "StationA", latitude 40.123456789012, longitude 105.123456789012
    (positive east) and ellipsoid height 1613.25. *)
Theorem decode_one_data_line (path : str) (fs : filesystem) :
  let line := b "40.123456789012 -105.123456789012 1613.2500 StationA" in
  let expected :=
    [ {| result_name := u "StationA";
         result_latitude := float_lit "40.123456789012";
         result_longitude := float_lit "105.123456789012";
         result_ellipsoid_height := float_lit "1613.25" |} ] in
  parse_output_file path (<[path := line]> fs) = inr expected
  /\ parse_output_file path (<[path := line ++ [newline]]> fs) = inr expected
  /\ float_lit "40.123456789012" = S754_finite false 5646874532619083 (-47)
  /\ float_lit "105.123456789012" = S754_finite false 7397405637857701 (-46)
  /\ float_lit "1613.25" = S754_finite false 7095148534038528 (-42).
Proof.
  cbv zeta.
  split; [| split].
  - rewrite (parse_output_file_existing path _ _ (lookup_insert_eq fs path _)).
    vm_compute. reflexivity.
  - rewrite (parse_output_file_existing path _ _ (lookup_insert_eq fs path _)).
    vm_compute. reflexivity.
  - vm_compute. repeat split; reflexivity.
Qed.

(** ** Script builder and point encoder *)

Lemma denver_line :
  point_line denver = u "39.000000000000,104.000000000000,1600.0000,Denver" ++ [0x0A].
Proof. vm_compute. reflexivity. Qed.

Lemma denver_written :
  write_points [denver] [] =
  (b "39.000000000000,104.000000000000,1600.0000,Denver" ++ [newline], inr tt).
Proof. vm_compute. reflexivity. Qed.

Lemma repr_2005 : float_repr (float_lit "2005.0") = u "2005.0".
Proof. vm_compute. reflexivity. Qed.

Lemma repr_2020 : float_repr (float_lit "2020.0") = u "2020.0".
Proof. vm_compute. reflexivity. Qed.

(** C1, as the code has it.  For input frame 1, output frame 25, epochs
    2005.0 and 2020.0 and the point Denver, the script builder produces
    twelve commands, in this order: "4", the output path, "1", "25", "2",
    "2005.0", "2", "2020.0", "3", the input path, "0" and "0"; the script
    is these lines, each ended by a newline; and the point encoder writes
    an input file that holds exactly the line
    "39.000000000000,104.000000000000,1600.0000,Denver". *)
Theorem end_to_end_script_and_input_file (output_path input_file : str)
    (fs : filesystem) :
  script_lines output_path 1 25 (float_lit "2005.0") (float_lit "2020.0") input_file
  = [ u "4"; output_path; u "1"; u "25"; u "2"; u "2005.0"; u "2"; u "2020.0";
      u "3"; input_file; u "0"; u "0" ]
  /\ length (script_lines output_path 1 25 (float_lit "2005.0")
               (float_lit "2020.0") input_file) = 12%nat
  /\ build_stdin_script output_path 1 25 (float_lit "2005.0") (float_lit "2020.0")
       input_file
     = u "4" ++ [0x0A] ++ output_path ++ [0x0A] ++ u "1" ++ [0x0A] ++ u "25" ++ [0x0A]
       ++ u "2" ++ [0x0A] ++ u "2005.0" ++ [0x0A] ++ u "2" ++ [0x0A] ++ u "2020.0"
       ++ [0x0A] ++ u "3" ++ [0x0A] ++ input_file ++ [0x0A] ++ u "0" ++ [0x0A]
       ++ u "0" ++ [0x0A]
  /\ write_input_file [denver] input_file fs
     = (<[input_file :=
            b "39.000000000000,104.000000000000,1600.0000,Denver" ++ [newline]]> fs,
        inr tt).
Proof.
  assert (Hlines :
    script_lines output_path 1 25 (float_lit "2005.0") (float_lit "2020.0") input_file
    = [ u "4"; output_path; u "1"; u "25"; u "2"; u "2005.0"; u "2"; u "2020.0";
        u "3"; input_file; u "0"; u "0" ]).
  { unfold script_lines. rewrite repr_2005, repr_2020. reflexivity. }
  split; [exact Hlines |]. split; [now rewrite Hlines |]. split.
  - unfold build_stdin_script. rewrite Hlines. cbn [join].
    now rewrite <- !app_assoc.
  - unfold write_input_file. now rewrite denver_written.
Qed.

(** C1, as it is worded, fails: the command list has twelve entries, not
    eleven. *)
Lemma end_to_end_script_is_not_eleven_lines :
  length (script_lines (u "/tmp/htdp_k3x9/results.txt") 1 25 (float_lit "2005.0")
            (float_lit "2020.0") (u "/tmp/htdp_k3x9/points.txt")) <> 11%nat.
Proof. vm_compute. discriminate. Qed.

(** ** Engine invoker *)

Lemma overrun_not_in_time (timeout : Z) (run : engine_run) :
  (inject_Z timeout < elapsed run)%Q ->
  Qle_bool (elapsed run) (inject_Z timeout) = false.
Proof.
  intros Hlate. destruct (Qle_bool (elapsed run) (inject_Z timeout)) eqn:E;
    [| reflexivity].
  apply Qle_bool_iff in E. exfalso. exact (Qlt_not_le _ _ Hlate E).
Qed.

(** C4. When the binary is in place, the points are written and the run
    takes longer than the timeout, [run_transformation] ends the child by
    killing it and fails with [TimeoutExpired]; the temporary directory is
    removed all the same; and the [/transform] handler, whose timeout is
    60 seconds, lets this exception through as it is, turned into none of
    the HTTP errors it makes of the other failures. *)
Theorem timeout_fails_with_TimeoutExpired (env : environment)
    (payload : TransformationRequest) (timeout : Z) (w : world) :
  ensure_binary_exists env w = inr tt ->
  snd (write_input_file (points payload) (invoked_input_file env w) (files w)) = inr tt ->
  (inject_Z timeout < elapsed (invoked_run env payload w))%Q ->
  let after :=
    remove_tree (mkdtemp env (u "htdp_") w)
      {| files := files_left (invoked_run env payload w);
         executables := executables w;
         children := children w ++ [Killed] |} in
  run_transformation env payload timeout w = (after, inl (TimeoutExpired timeout))
  /\ children after = children w ++ [Killed]
  /\ (timeout = 60%Z ->
      transform env payload w = (after, inl (TimeoutExpired 60))).
Proof.
  intros Hbinary Hwritten Hlate after.
  assert (Hrun : run_transformation env payload timeout w
                 = (after, inl (TimeoutExpired timeout))).
  { unfold run_transformation. rewrite Hbinary.
    subst after. unfold invoked_run in *.
    fold (invoked_input_file env w) (invoked_output_file env w).
    destruct (write_input_file (points payload) (invoked_input_file env w) (files w))
      as [fs written]. cbn [fst snd] in *. subst written.
    unfold subprocess_run, with_files. cbn [files executables children].
    now rewrite (overrun_not_in_time _ _ Hlate). }
  split; [exact Hrun |]. split; [reflexivity |].
  intros ->. unfold transform. now rewrite Hrun.
Qed.

Lemma timeout_fails_with_TimeoutExpired_witness :
  run_transformation slow_env denver_request 60 installed
  = (remove_tree (u "/tmp/htdp_k3x9")
       {| files := files_left (invoked_run slow_env denver_request installed);
          executables := executables installed;
          children := [Killed] |},
     inl (TimeoutExpired 60))
  /\ transform slow_env denver_request installed
     = (remove_tree (u "/tmp/htdp_k3x9")
          {| files := files_left (invoked_run slow_env denver_request installed);
             executables := executables installed;
             children := [Killed] |},
        inl (TimeoutExpired 60)).
Proof.
  assert (Hbinary : ensure_binary_exists slow_env installed = inr tt)
    by (vm_compute; reflexivity).
  assert (Hwritten : snd (write_input_file (points denver_request)
                            (invoked_input_file slow_env installed) (files installed))
                     = inr tt)
    by (vm_compute; reflexivity).
  assert (Hlate : (inject_Z 60 < elapsed (invoked_run slow_env denver_request installed))%Q)
    by (vm_compute; reflexivity).
  pose proof (timeout_fails_with_TimeoutExpired slow_env denver_request 60 installed
                Hbinary Hwritten Hlate) as H.
  cbv zeta in H. destruct H as [Hrun [_ Htransform]].
  split; [exact Hrun | exact (Htransform eq_refl)].
Defined.

(** * Further properties *)

(** ** Frame resolution: failures *)

Lemma int_of_str_error (s : str) (e : exn) :
  int_of_str s = inl e -> is_exn_ValueError e.
Proof.
  unfold int_of_str, raise, ret, is_exn_ValueError.
  destruct (to_ascii_decimal s) as [a |]; [| intros [= <-]; eauto].
  destruct (strip_with c_isspace a) as [|c rest].
  - destruct (remove_underscores 0 []); [| intros [= <-]; eauto].
    repeat match goal with
           | |- context [if ?c then _ else _] => destruct c
           end; intros [= <-]; eauto.
  - assert (H : forall (negative : bool) (body : str),
               match remove_underscores 0 body with
               | Some ds =>
                   if negb (forallb is_ascii_digit ds) || (length ds =? 0)%nat
                   then inl (ValueError (InvalidIntLiteral s))
                   else if (int_max_str_digits <? length ds)%nat
                        then inl (ValueError (IntDigitLimit (length ds)))
                        else inr (if negative then (- digits_value ds)%Z
                                  else digits_value ds)
               | None => inl (ValueError (InvalidIntLiteral s))
               end = inl e -> exists payload, e = ValueError payload).
    { intros negative body. destruct (remove_underscores 0 body);
        [| intros [= <-]; eauto].
      repeat match goal with
             | |- context [if ?c then _ else _] => destruct c
             end; try discriminate; intros [= <-]; eauto. }
    destruct (N.eq_dec c 0x2B) as [-> | Hplus]; [apply (H false) |].
    destruct (N.eq_dec c 0x2D) as [-> | Hminus]; [apply (H true) |].
    replace (match c with
             | 43 => (false, rest) | 45 => (true, rest) | _ => (false, c :: rest)
             end) with (false, c :: rest); [apply (H false) |].
    destruct c as [|p]; [reflexivity |].
    do 6 (destruct p as [p | p |]; try reflexivity); congruence.
Qed.

(** X1. [resolve_frame] fails with [ValueError] and nothing else, whatever
    it is given. *)
Theorem resolve_frame_raises_only_ValueError (value : frame_id) (e : exn) :
  resolve_frame value = inl e -> is_exn_ValueError e.
Proof.
  unfold is_exn_ValueError. destruct value as [i | text].
  - cbn [resolve_frame]. unfold resolve_index, raise.
    destruct (in_menu FRAME_MENU i); [discriminate | intros [= <-]; eauto].
  - destruct (strip text) as [|c rest] eqn:Estrip.
    + unfold resolve_frame. rewrite Estrip. intros [= <-]. eauto.
    + destruct (isdigit (strip text)) eqn:Edig.
      * rewrite (resolve_frame_digits _ Edig). unfold bind.
        destruct (int_of_str (strip text)) as [e' | i] eqn:Eint.
        -- intros [= <-]. exact (int_of_str_error _ _ Eint).
        -- unfold resolve_index, raise.
           destruct (in_menu FRAME_MENU i); [discriminate | intros [= <-]; eauto].
      * rewrite resolve_frame_text by (assumption || congruence).
        destruct (_frame_aliases !! _normalise_label (strip text));
          [discriminate | intros [= <-]; eauto].
Qed.

Lemma resolve_frame_raises_only_ValueError_witness :
  resolve_frame (FStr (u "not-a-frame"))
  = inl (ValueError (UnrecognisedFrame (u "not-a-frame")))
  /\ is_exn_ValueError (ValueError (UnrecognisedFrame (u "not-a-frame"))).
Proof.
  assert (H : resolve_frame (FStr (u "not-a-frame"))
              = inl (ValueError (UnrecognisedFrame (u "not-a-frame"))))
    by (vm_compute; reflexivity).
  split; [exact H |].
  exact (resolve_frame_raises_only_ValueError _ _ H).
Defined.

(** X2. A number resolves exactly when it is one of 1, ..., 26, and then to
    itself; any other number is an unknown frame index. *)
Theorem resolve_frame_number (i : Z) :
  ((1 <= i <= 26)%Z /\ resolve_frame (FInt i) = inr i)
  \/ (~ (1 <= i <= 26)%Z
      /\ resolve_frame (FInt i) = inl (ValueError (UnknownFrameIndex i))).
Proof.
  cbn [resolve_frame]. unfold resolve_index, raise, ret.
  destruct (in_menu FRAME_MENU i) eqn:E.
  - left. split; [now apply in_menu_range | reflexivity].
  - right. split; [| reflexivity].
    intros Hi. apply in_menu_range in Hi. congruence.
Qed.

Lemma dropwhile_all (f : N -> bool) (s : str) :
  forallb f s = true -> dropwhile f s = [].
Proof.
  induction s as [|c s IH]; [reflexivity |]. simpl.
  intros H. apply andb_true_iff in H as [-> Hs]. now apply IH.
Qed.

(** X3. A text made of whitespace only, the empty text included, is
    refused as an empty reference frame. *)
Theorem resolve_frame_blank (value : str) :
  forallb isspace value = true ->
  resolve_frame (FStr value) = inl (ValueError EmptyFrame).
Proof.
  intros Hblank. unfold resolve_frame, strip, strip_with.
  now rewrite (dropwhile_all _ _ Hblank).
Qed.

Lemma resolve_frame_blank_witness :
  resolve_frame (FStr [0x20; 0x09; 0xA0; 0x3000; 0x0A]) = inl (ValueError EmptyFrame).
Proof.
  apply (resolve_frame_blank [0x20; 0x09; 0xA0; 0x3000; 0x0A]).
  vm_compute. reflexivity.
Defined.

(** ** Frame resolution: the catalog and its aliases *)

Lemma list_frames_is_menu : list_frames = FRAME_MENU.
Proof. reflexivity. Qed.

Lemma forallb_In {A} (P : A -> bool) (l : list A) (x : A) :
  forallb P l = true -> In x l -> P x = true.
Proof. intros H Hin. rewrite forallb_forall in H. now apply H. Qed.

(** X4. Every entry that [list_frames] returns resolves to its own index:
    by the index, by the decimal text of the index, by its label as
    listed, and by its label in upper-case ASCII. *)
Theorem listed_frames_resolve (idx : Z) (label : str) :
  In (idx, label) list_frames ->
  resolve_frame (FInt idx) = inr idx
  /\ resolve_frame (FStr (str_of_int idx)) = inr idx
  /\ resolve_frame (FStr label) = inr idx
  /\ resolve_frame (FStr (map ascii_upper label)) = inr idx.
Proof.
  intros Hin.
  assert (Hall : forallb (fun item =>
            result_eqb (resolve_frame (FInt (fst item))) (inr (fst item))
            && result_eqb (resolve_frame (FStr (str_of_int (fst item)))) (inr (fst item))
            && result_eqb (resolve_frame (FStr (snd item))) (inr (fst item))
            && result_eqb (resolve_frame (FStr (map ascii_upper (snd item))))
                 (inr (fst item))) list_frames = true)
    by (vm_compute; reflexivity).
  pose proof (forallb_In _ _ _ Hall Hin) as H. cbn [fst snd] in H.
  apply andb_true_iff in H as [H H4]. apply andb_true_iff in H as [H H3].
  apply andb_true_iff in H as [H1 H2].
  repeat split; now apply result_eqb_eq.
Qed.

Lemma listed_frames_resolve_witness :
  In (5%Z, u "WGS84 original (Transit)") list_frames
  /\ resolve_frame (FInt 5) = inr 5%Z
  /\ resolve_frame (FStr (str_of_int 5)) = inr 5%Z
  /\ resolve_frame (FStr (u "WGS84 original (Transit)")) = inr 5%Z
  /\ resolve_frame (FStr (map ascii_upper (u "WGS84 original (Transit)"))) = inr 5%Z.
Proof.
  assert (Hin : In (5%Z, u "WGS84 original (Transit)") list_frames)
    by (do 4 right; left; reflexivity).
  split; [exact Hin |].
  exact (listed_frames_resolve 5 (u "WGS84 original (Transit)") Hin).
Defined.

Lemma lower_app (a c : str) : lower (a ++ c) = lower a ++ lower c.
Proof. unfold lower. apply flat_map_app. Qed.

Lemma normalise_label_app (a c : str) :
  _normalise_label (a ++ c) = _normalise_label a ++ _normalise_label c.
Proof.
  unfold _normalise_label, re_sub_non_alnum. now rewrite lower_app, List.filter_app.
Qed.

Lemma lower_char_alnum (c : N) : is_a_z_0_9 c = true -> lower_char c = [c].
Proof.
  unfold is_a_z_0_9, lower_char, between. intros H.
  destruct ((65 <=? c) && (c <=? 90)) eqn:E1.
  { apply andb_true_iff in E1 as [Ha Hb]. apply N.leb_le in Ha, Hb.
    apply orb_true_iff in H as [H | H]; apply andb_true_iff in H as [Hc Hd];
      apply N.leb_le in Hc, Hd; lia. }
  destruct (c =? 304) eqn:E2.
  { apply N.eqb_eq in E2. subst. discriminate. }
  destruct (c =? 8490) eqn:E3.
  { apply N.eqb_eq in E3. subst. discriminate. }
  reflexivity.
Qed.

Lemma normalise_label_fixed (s : str) :
  forallb is_a_z_0_9 s = true -> _normalise_label s = s.
Proof.
  induction s as [|c s IH]; [reflexivity |]. cbn [forallb].
  intros H. apply andb_true_iff in H as [Hc Hs].
  change (c :: s) with ([c] ++ s). rewrite normalise_label_app, (IH Hs).
  unfold _normalise_label, lower, re_sub_non_alnum. cbn [flat_map].
  rewrite (lower_char_alnum c Hc). cbn [app List.filter]. now rewrite Hc.
Qed.

(** X5. Normalising a label is idempotent, and it distributes over
    concatenation. *)
Theorem normalise_label_idempotent (value other : str) :
  _normalise_label (_normalise_label value) = _normalise_label value
  /\ _normalise_label (value ++ other)
     = _normalise_label value ++ _normalise_label other.
Proof.
  split; [| apply normalise_label_app].
  apply normalise_label_fixed. apply forallb_forall. intros c Hc.
  pose proof (normalise_label_alnum value) as Hall.
  rewrite Forall_forall in Hall. apply Hall. now apply list_elem_of_In.
Qed.

Lemma same_normal_form_same_index (value other : str) (idx : Z) :
  strip value <> [] -> isdigit (strip value) = false ->
  strip other <> [] -> isdigit (strip other) = false ->
  _normalise_label (strip value) = _normalise_label (strip other) ->
  (resolve_frame (FStr value) = inr idx <-> resolve_frame (FStr other) = inr idx).
Proof.
  intros Hv Hdv Ho Hdo Hsame.
  rewrite (resolve_frame_text value Hv Hdv), (resolve_frame_text other Ho Hdo), Hsame.
  destruct (_frame_aliases !! _normalise_label (strip other)); [reflexivity |].
  split; discriminate.
Qed.

(** X6. Two texts that are neither blank nor runs of digits and have the
    same normal form resolve alike: to the same index, or both not at
    all. *)
Theorem resolve_frame_by_normal_form (value other : str) (idx : Z) :
  strip value <> [] -> isdigit (strip value) = false ->
  strip other <> [] -> isdigit (strip other) = false ->
  _normalise_label (strip value) = _normalise_label (strip other) ->
  (resolve_frame (FStr value) = inr idx <-> resolve_frame (FStr other) = inr idx).
Proof.
  intros Hv Hdv Ho Hdo Hsame.
  rewrite (resolve_frame_text value Hv Hdv), (resolve_frame_text other Ho Hdo).
  rewrite Hsame.
  destruct (_frame_aliases !! _normalise_label (strip other)) as [found |].
  - reflexivity.
  - split; discriminate.
Qed.

Lemma resolve_frame_by_normal_form_witness :
  resolve_frame (FStr (u "  Nad-83 (2011 / cors96 / 2007) ")) = inr 1%Z
  <-> resolve_frame (FStr (u "NAD_83(2011/CORS96/2007)")) = inr 1%Z.
Proof.
  apply (resolve_frame_by_normal_form (u "  Nad-83 (2011 / cors96 / 2007) ")
           (u "NAD_83(2011/CORS96/2007)") 1);
    try (vm_compute; discriminate); vm_compute; reflexivity.
Defined.

Lemma no_alias_is_a_number (key : str) (idx : Z) :
  _frame_aliases !! key = Some idx -> forallb is_ascii_digit key = false.
Proof.
  intros Hk. apply negb_true_iff. revert key idx Hk.
  apply (map_forallb _frame_aliases (fun k _ => negb (forallb is_ascii_digit k))).
  vm_compute. reflexivity.
Qed.

(** X7. Punctuation is not ignored in a number: a text that is not a plain
    run of digits, but whose normal form is one (such as "2-5" or "#25"),
    is not recognised, though its digits alone may name a frame. *)
Theorem resolve_frame_punctuated_number (value : str) :
  strip value <> [] -> isdigit (strip value) = false ->
  forallb is_ascii_digit (_normalise_label (strip value)) = true ->
  resolve_frame (FStr value) = inl (ValueError (UnrecognisedFrame value)).
Proof.
  intros Hv Hdv Hnum. rewrite (resolve_frame_text value Hv Hdv).
  destruct (_frame_aliases !! _normalise_label (strip value)) as [idx |] eqn:Ek;
    [| reflexivity].
  apply no_alias_is_a_number in Ek. congruence.
Qed.

Lemma resolve_frame_punctuated_number_witness :
  resolve_frame (FStr (u "2-5")) = inl (ValueError (UnrecognisedFrame (u "2-5")))
  /\ resolve_frame (FStr (u "25")) = inr 25%Z.
Proof.
  split; [| vm_compute; reflexivity].
  apply (resolve_frame_punctuated_number (u "2-5"));
    try (vm_compute; discriminate); vm_compute; reflexivity.
Defined.

(** ** Frame resolution: letter case *)

Lemma letters_forall (P : N -> bool) :
  forallb P (map N.of_nat (seq 97 26)) = true ->
  forall c, between 0x61 0x7A c = true -> P c = true.
Proof.
  intros Hall c Hc. apply (forallb_In _ _ _ Hall).
  unfold between in Hc. apply andb_true_iff in Hc as [Hlo Hhi].
  apply N.leb_le in Hlo, Hhi. apply in_map_iff. exists (N.to_nat c).
  split; [apply N2Nat.id | apply in_seq; lia].
Qed.

Lemma ascii_upper_isspace (c : N) : isspace (ascii_upper c) = isspace c.
Proof.
  unfold ascii_upper. destruct (between 97 122 c) eqn:E; [| reflexivity].
  apply Bool.eqb_prop. revert c E.
  apply (letters_forall (fun c => Bool.eqb (isspace (c - 32)) (isspace c))).
  vm_compute. reflexivity.
Qed.

Lemma ascii_upper_isdigit (c : N) : isdigit_char (ascii_upper c) = isdigit_char c.
Proof.
  unfold ascii_upper. destruct (between 97 122 c) eqn:E; [| reflexivity].
  apply Bool.eqb_prop. revert c E.
  apply (letters_forall (fun c => Bool.eqb (isdigit_char (c - 32)) (isdigit_char c))).
  vm_compute. reflexivity.
Qed.

Lemma ascii_upper_lower (c : N) : lower_char (ascii_upper c) = lower_char c.
Proof.
  unfold ascii_upper. destruct (between 97 122 c) eqn:E; [| reflexivity].
  apply str_eqb_eq. revert c E.
  apply (letters_forall (fun c => str_eqb (lower_char (c - 32)) (lower_char c))).
  vm_compute. reflexivity.
Qed.

Lemma ascii_upper_digit_fixed (c : N) : isdigit_char c = true -> ascii_upper c = c.
Proof.
  unfold ascii_upper. destruct (between 97 122 c) eqn:E; [| reflexivity].
  intros Hd. exfalso. revert Hd. apply not_true_iff_false, negb_true_iff.
  revert c E. apply (letters_forall (fun c => negb (isdigit_char c))).
  vm_compute. reflexivity.
Qed.

Lemma dropwhile_map (p : N -> bool) (f : N -> N) (s : str) :
  (forall c, p (f c) = p c) ->
  dropwhile p (map f s) = map f (dropwhile p s).
Proof.
  intros Hp. induction s as [|c s IH]; [reflexivity |]. simpl.
  rewrite Hp. now destruct (p c).
Qed.

Lemma strip_map (f : N -> N) (s : str) :
  (forall c, isspace (f c) = isspace c) -> strip (map f s) = map f (strip s).
Proof.
  intros Hp. unfold strip, strip_with.
  now rewrite (dropwhile_map _ _ _ Hp), <- map_rev, (dropwhile_map _ _ _ Hp), map_rev.
Qed.

Lemma normalise_label_upper (s : str) :
  _normalise_label (map ascii_upper s) = _normalise_label s.
Proof.
  unfold _normalise_label, lower. f_equal.
  induction s as [|c s IH]; [reflexivity |]. simpl.
  now rewrite ascii_upper_lower, IH.
Qed.

Lemma upper_digits_fixed (s : str) :
  forallb isdigit_char s = true -> map ascii_upper s = s.
Proof.
  induction s as [|c s IH]; [reflexivity |]. simpl.
  intros H. apply andb_true_iff in H as [Hc Hs].
  now rewrite (ascii_upper_digit_fixed c Hc), (IH Hs).
Qed.

Lemma forallb_isdigit_upper (s : str) :
  forallb isdigit_char (map ascii_upper s) = forallb isdigit_char s.
Proof.
  induction s as [|c s IH]; [reflexivity |]. simpl.
  now rewrite ascii_upper_isdigit, IH.
Qed.

Lemma isdigit_upper (s : str) : isdigit (map ascii_upper s) = isdigit s.
Proof.
  destruct s as [|c s]; [reflexivity |]. unfold isdigit.
  change (map ascii_upper (c :: s)) with (ascii_upper c :: map ascii_upper s).
  change (ascii_upper c :: map ascii_upper s) with (map ascii_upper (c :: s)) at 2.
  apply forallb_isdigit_upper.
Qed.

(** X8. Resolution does not depend on the case of ASCII letters: a text
    resolves to an index exactly when the text with its lower-case letters
    put in upper case does. *)
Theorem resolve_frame_ignores_ascii_case (value : str) (idx : Z) :
  resolve_frame (FStr (map ascii_upper value)) = inr idx
  <-> resolve_frame (FStr value) = inr idx.
Proof.
  pose proof (strip_map ascii_upper value ascii_upper_isspace) as Hstrip.
  assert (Hcase : strip value = [] \/ strip value <> [])
    by (destruct (strip value); [left | right]; congruence).
  destruct Hcase as [Hblank | Hne].
  { unfold resolve_frame. rewrite Hstrip, Hblank. reflexivity. }
  assert (Hne' : strip (map ascii_upper value) <> []).
  { rewrite Hstrip. destruct (strip value); [congruence | discriminate]. }
  destruct (isdigit (strip value)) eqn:Edig.
  - assert (Hfixed : strip (map ascii_upper value) = strip value).
    { rewrite Hstrip. apply upper_digits_fixed.
      destruct (strip value); [discriminate | exact Edig]. }
    rewrite (resolve_frame_digits value Edig).
    rewrite resolve_frame_digits by (rewrite Hfixed; exact Edig).
    now rewrite Hfixed.
  - apply same_normal_form_same_index; try assumption.
    + now rewrite Hstrip, isdigit_upper.
    + now rewrite Hstrip, normalise_label_upper.
Qed.

(** ** Engine invoker: every outcome *)

Lemma remove_tree_lookup (dir : str) (w : world) (path : str) :
  files (remove_tree dir w) !! path =
  if startswith path (dir ++ u "/") then None else files w !! path.
Proof.
  unfold remove_tree. cbn [files].
  destruct (startswith path (dir ++ u "/")) eqn:E.
  - apply map_lookup_filter_None_2. right. intros data _ HP. cbn [fst] in HP. congruence.
  - destruct (files w !! path) as [data |] eqn:Efile.
    + now apply map_lookup_filter_Some_2.
    + apply map_lookup_filter_None_2. now left.
Qed.

(** [run_transformation] once the binary has been found in place. *)
Lemma run_transformation_ready (env : environment) (payload : TransformationRequest)
    (timeout : Z) (w : world) :
  ensure_binary_exists env w = inr tt ->
  run_transformation env payload timeout w =
  let tmp := mkdtemp env (u "htdp_") w in
  let written :=
    write_input_file (points payload) (invoked_input_file env w) (files w) in
  match snd written with
  | inl e => (remove_tree tmp (with_files (fst written) w), inl e)
  | inr _ =>
      let run := invoked_run env payload w in
      if Qle_bool (elapsed run) (inject_Z timeout)
      then
        (remove_tree tmp
           {| files := files_left run; executables := executables w;
              children := children w ++ [Exited (exit_status run)] |},
         do out <- captured_text (run_stdout run);
         do err <- captured_text (run_stderr run);
         if negb (exit_status run =? 0)%Z
         then inl (RuntimeError out err)
         else
           match parse_output_file (invoked_output_file env w) (files_left run) with
           | inl e => inl e
           | inr rows => inr {| stdout := out; stderr := err; results := rows |}
           end)
      else
        (remove_tree tmp
           {| files := files_left run; executables := executables w;
              children := children w ++ [Killed] |},
         inl (TimeoutExpired timeout))
  end.
Proof.
  intros Hbinary. unfold run_transformation. rewrite Hbinary. cbv zeta.
  unfold invoked_run.
  fold (invoked_input_file env w) (invoked_output_file env w).
  destruct (write_input_file (points payload) (invoked_input_file env w) (files w))
    as [fs written]. cbn [fst snd].
  destruct written as [e | []]; [reflexivity |].
  unfold subprocess_run, with_files, raise, ret. cbn [files executables children].
  destruct (Qle_bool _ _); [| reflexivity].
  unfold bind.
  destruct (captured_text (run_stdout _)) as [e | out]; [reflexivity |].
  destruct (captured_text (run_stderr _)) as [e | err]; [reflexivity |].
  cbn [returncode completed_stdout completed_stderr files].
  destruct (negb _); [reflexivity |].
  now destruct (parse_output_file _ _).
Qed.

Lemma ensure_binary_exists_cases (env : environment) (w : world) :
  ensure_binary_exists env w = inr tt
  \/ (files w !! HTDP_BINARY env = None
      /\ ensure_binary_exists env w
         = inl (FileNotFoundError (BinaryNotFound (HTDP_BINARY env))))
  \/ ((HTDP_BINARY env ∉ executables w)
      /\ ensure_binary_exists env w = inl (PermissionError (HTDP_BINARY env))).
Proof.
  unfold ensure_binary_exists, raise, ret.
  destruct (files w !! HTDP_BINARY env); [| right; left; now split].
  destruct (bool_decide (HTDP_BINARY env ∈ executables w)) eqn:E; [now left |].
  right. right. split; [| reflexivity]. now apply bool_decide_eq_false in E.
Qed.

(** X9. When the binary is missing or may not be executed,
    [run_transformation] fails with [FileNotFoundError], respectively
    [PermissionError], and leaves the world as it found it: nothing is
    written, no directory made, no process started. *)
Theorem run_transformation_binary_unavailable (env : environment)
    (payload : TransformationRequest) (timeout : Z) (w : world) :
  files w !! HTDP_BINARY env = None \/ (HTDP_BINARY env ∉ executables w) ->
  exists e,
    run_transformation env payload timeout w = (w, inl e)
    /\ (e = FileNotFoundError (BinaryNotFound (HTDP_BINARY env))
        \/ e = PermissionError (HTDP_BINARY env)).
Proof.
  intros Hbad. unfold run_transformation.
  destruct (ensure_binary_exists_cases env w) as [Hok | [[_ Hmiss] | [_ Hperm]]].
  - exfalso. unfold ensure_binary_exists, raise, ret in Hok.
    destruct Hbad as [Hmissing | Hnoexec].
    + rewrite Hmissing in Hok. discriminate.
    + destruct (files w !! HTDP_BINARY env); [| discriminate].
      rewrite bool_decide_eq_false_2 in Hok by assumption. discriminate.
  - rewrite Hmiss. eauto.
  - rewrite Hperm. eauto.
Qed.

Definition empty_world : world :=
  {| files := ∅; executables := ∅; children := [] |}.

Lemma run_transformation_binary_unavailable_witness :
  exists e,
    run_transformation slow_env denver_request 60 empty_world = (empty_world, inl e)
    /\ (e = FileNotFoundError (BinaryNotFound (HTDP_BINARY slow_env))
        \/ e = PermissionError (HTDP_BINARY slow_env)).
Proof.
  apply (run_transformation_binary_unavailable slow_env denver_request 60 empty_world).
  left. apply lookup_empty.
Defined.

(** X10. Whatever happens once the binary has been found (the points
    cannot be written, the run times out, it exits with an error or it
    succeeds), no file of the temporary directory is left afterwards. *)
Theorem run_transformation_removes_tmpdir (env : environment)
    (payload : TransformationRequest) (timeout : Z) (w : world) (path : str) :
  ensure_binary_exists env w = inr tt ->
  startswith path (mkdtemp env (u "htdp_") w ++ u "/") = true ->
  files (fst (run_transformation env payload timeout w)) !! path = None.
Proof.
  intros Hbinary Hinside. rewrite (run_transformation_ready _ _ _ _ Hbinary). cbv zeta.
  destruct (snd (write_input_file _ _ _)); cbn [fst].
  - now rewrite remove_tree_lookup, Hinside.
  - destruct (Qle_bool _ _); cbn [fst]; now rewrite remove_tree_lookup, Hinside.
Qed.

Lemma run_transformation_removes_tmpdir_witness :
  files (fst (run_transformation slow_env denver_request 60 installed))
  !! u "/tmp/htdp_k3x9/points.txt" = None.
Proof.
  apply (run_transformation_removes_tmpdir slow_env denver_request 60 installed
           (u "/tmp/htdp_k3x9/points.txt")); vm_compute; reflexivity.
Defined.

Lemma utf8_encode_error (text : str) (e : exn) :
  utf8_encode text = inl e -> e = UnicodeEncodeError.
Proof.
  revert e. induction text as [|c text IH]; simpl; intros e H; [discriminate |].
  destruct (utf8_encode_char c); [| now injection H as <-].
  unfold bind in H. destruct (utf8_encode text) as [e' | rest]; [| discriminate].
  injection H as <-. now apply IH.
Qed.

Lemma write_points_error (pts : list TransformationPoint) :
  forall (written : bytes) (e : exn),
    snd (write_points pts written) = inl e -> e = UnicodeEncodeError.
Proof.
  induction pts as [|pt pts IH]; intros written e; simpl; [discriminate |].
  destruct (utf8_encode (point_line pt)) as [e' | data] eqn:Eenc.
  - simpl. intros [= <-]. exact (utf8_encode_error _ _ Eenc).
  - apply IH.
Qed.

Lemma write_input_file_error (pts : list TransformationPoint) (path : str)
    (fs : filesystem) (e : exn) :
  snd (write_input_file pts path fs) = inl e -> e = UnicodeEncodeError.
Proof.
  unfold write_input_file. intros H. apply (write_points_error pts [] e).
  now destruct (write_points pts []).
Qed.

Lemma captured_text_error (data : bytes) (e : exn) :
  captured_text data = inl e -> e = UnicodeDecodeError.
Proof.
  unfold captured_text. destruct (utf8_decode_strict data); [discriminate |].
  now intros [= <-].
Qed.

Lemma parse_output_file_error (path : str) (fs : filesystem) (e : exn) :
  parse_output_file path fs = inl e -> e = FileNotFoundError (OutputNotCreated path).
Proof.
  unfold parse_output_file. destruct (fs !! path); [| now intros [= <-]].
  rewrite parse_lines_spec. discriminate.
Qed.

(** X11. [TimeoutExpired] means a timeout and nothing else: it is raised
    only after the binary was found and the points written, for a run
    that took longer than the timeout given, and it carries that
    timeout. *)
Theorem TimeoutExpired_only_on_overrun (env : environment)
    (payload : TransformationRequest) (timeout limit : Z) (w w' : world) :
  run_transformation env payload timeout w = (w', inl (TimeoutExpired limit)) ->
  limit = timeout
  /\ ensure_binary_exists env w = inr tt
  /\ snd (write_input_file (points payload) (invoked_input_file env w) (files w))
     = inr tt
  /\ (inject_Z timeout < elapsed (invoked_run env payload w))%Q.
Proof.
  destruct (ensure_binary_exists_cases env w) as [Hok | [[_ Hbad] | [_ Hbad]]];
    try (unfold run_transformation; rewrite Hbad; discriminate).
  rewrite (run_transformation_ready _ _ _ _ Hok). cbv zeta.
  destruct (snd (write_input_file _ _ _)) as [e | []] eqn:Ewritten.
  - intros [= _ ->]. apply write_input_file_error in Ewritten. discriminate.
  - destruct (Qle_bool (elapsed (invoked_run env payload w)) (inject_Z timeout)) eqn:Etime.
    + unfold bind.
      destruct (captured_text (run_stdout _)) as [e | out] eqn:Eout;
        [intros [= _ ->]; apply captured_text_error in Eout; discriminate |].
      destruct (captured_text (run_stderr _)) as [e | err] eqn:Eerr;
        [intros [= _ ->]; apply captured_text_error in Eerr; discriminate |].
      destruct (negb _); [discriminate |].
      destruct (parse_output_file _ _) as [e |] eqn:Eparse; [| discriminate].
      intros [= _ ->]. apply parse_output_file_error in Eparse. discriminate.
    + intros [= _ ->]. split; [reflexivity |]. split; [exact Hok |].
      split; [reflexivity |].
      apply Qnot_le_lt. intros Hle. apply Qle_bool_iff in Hle. congruence.
Qed.

Lemma slow_run_times_out :
  run_transformation slow_env denver_request 60 installed
  = (remove_tree (u "/tmp/htdp_k3x9")
       {| files := files_left (invoked_run slow_env denver_request installed);
          executables := executables installed;
          children := [Killed] |},
     inl (TimeoutExpired 60)).
Proof.
  rewrite run_transformation_ready by (vm_compute; reflexivity). cbv zeta.
  replace (snd (write_input_file (points denver_request)
                  (invoked_input_file slow_env installed) (files installed)))
    with (@inr exn unit tt) by (vm_compute; reflexivity).
  replace (Qle_bool (elapsed (invoked_run slow_env denver_request installed))
             (inject_Z 60)) with false by (vm_compute; reflexivity).
  reflexivity.
Qed.

Lemma TimeoutExpired_only_on_overrun_witness :
  (60 = 60)%Z
  /\ ensure_binary_exists slow_env installed = inr tt
  /\ snd (write_input_file (points denver_request)
            (invoked_input_file slow_env installed) (files installed)) = inr tt
  /\ (inject_Z 60 < elapsed (invoked_run slow_env denver_request installed))%Q.
Proof.
  exact (TimeoutExpired_only_on_overrun slow_env denver_request 60 60 installed _
           slow_run_times_out).
Defined.

(** X12. A run that ends in time with a status other than 0, and whose
    output and error streams can be decoded, makes [run_transformation]
    fail with [RuntimeError] carrying the two decoded texts, whether or
    not an output file was written; and the [/transform] handler turns
    this into an HTTP 500 error. *)
Theorem nonzero_exit_fails_with_RuntimeError (env : environment)
    (payload : TransformationRequest) (timeout : Z) (w : world) (out err : str) :
  ensure_binary_exists env w = inr tt ->
  snd (write_input_file (points payload) (invoked_input_file env w) (files w)) = inr tt ->
  (elapsed (invoked_run env payload w) <= inject_Z timeout)%Q ->
  captured_text (run_stdout (invoked_run env payload w)) = inr out ->
  captured_text (run_stderr (invoked_run env payload w)) = inr err ->
  exit_status (invoked_run env payload w) <> 0%Z ->
  let failure := RuntimeError out err in
  snd (run_transformation env payload timeout w) = inl failure
  /\ children (fst (run_transformation env payload timeout w))
     = children w ++ [Exited (exit_status (invoked_run env payload w))]
  /\ (timeout = 60%Z -> snd (transform env payload w) = inl (HTTPException 500 failure)).
Proof.
  intros Hbinary Hwritten Hintime Hout Herr Hstatus failure.
  assert (Hrun : run_transformation env payload timeout w
                 = (remove_tree (mkdtemp env (u "htdp_") w)
                      {| files := files_left (invoked_run env payload w);
                         executables := executables w;
                         children := children w
                                     ++ [Exited (exit_status (invoked_run env payload w))] |},
                    inl failure)).
  { rewrite (run_transformation_ready _ _ _ _ Hbinary). cbv zeta.
    rewrite Hwritten. apply Qle_bool_iff in Hintime. rewrite Hintime, Hout, Herr.
    cbn [bind]. apply Z.eqb_neq in Hstatus. now rewrite Hstatus. }
  rewrite Hrun. split; [reflexivity |]. split; [reflexivity |].
  intros ->. unfold transform. now rewrite Hrun.
Qed.

Lemma nonzero_exit_fails_with_RuntimeError_witness :
  snd (run_transformation failing_env denver_request 60 installed)
  = inl (RuntimeError (u "HTDP") (u "bad input"))
  /\ children (fst (run_transformation failing_env denver_request 60 installed))
     = [Exited 3]
  /\ snd (transform failing_env denver_request installed)
     = inl (HTTPException 500 (RuntimeError (u "HTDP") (u "bad input"))).
Proof.
  assert (H1 : ensure_binary_exists failing_env installed = inr tt)
    by (vm_compute; reflexivity).
  assert (H2 : snd (write_input_file (points denver_request)
                      (invoked_input_file failing_env installed) (files installed))
               = inr tt) by (vm_compute; reflexivity).
  assert (H3 : (elapsed (invoked_run failing_env denver_request installed)
                <= inject_Z 60)%Q) by (vm_compute; discriminate).
  assert (H4 : captured_text (run_stdout (invoked_run failing_env denver_request installed))
               = inr (u "HTDP")) by (vm_compute; reflexivity).
  assert (H5 : captured_text (run_stderr (invoked_run failing_env denver_request installed))
               = inr (u "bad input")) by (vm_compute; reflexivity).
  assert (H6 : exit_status (invoked_run failing_env denver_request installed) <> 0%Z)
    by (vm_compute; discriminate).
  pose proof (nonzero_exit_fails_with_RuntimeError failing_env denver_request 60
                installed _ _ H1 H2 H3 H4 H5 H6) as H.
  cbv zeta in H. destruct H as [Ha [Hb Hc]].
  split; [exact Ha |]. split; [exact Hb | exact (Hc eq_refl)].
Defined.

(** X13. A run that ends in time with status 0, whose output and error
    streams can be decoded and which leaves the output file, makes
    [run_transformation] return the two decoded texts together with the
    rows decoded from that file, as the binary left it. *)
Theorem successful_run_returns_decoded_rows (env : environment)
    (payload : TransformationRequest) (timeout : Z) (w : world) (data : bytes)
    (out err : str) :
  ensure_binary_exists env w = inr tt ->
  snd (write_input_file (points payload) (invoked_input_file env w) (files w)) = inr tt ->
  (elapsed (invoked_run env payload w) <= inject_Z timeout)%Q ->
  captured_text (run_stdout (invoked_run env payload w)) = inr out ->
  captured_text (run_stderr (invoked_run env payload w)) = inr err ->
  exit_status (invoked_run env payload w) = 0%Z ->
  files_left (invoked_run env payload w) !! invoked_output_file env w = Some data ->
  snd (run_transformation env payload timeout w)
  = inr {| stdout := out;
           stderr := err;
           results := decoded_rows (text_lines (utf8_decode_ignore data)) |}
  /\ children (fst (run_transformation env payload timeout w))
     = children w ++ [Exited 0].
Proof.
  intros Hbinary Hwritten Hintime Hout Herr Hstatus Hfile.
  rewrite (run_transformation_ready _ _ _ _ Hbinary). cbv zeta.
  rewrite Hwritten. apply Qle_bool_iff in Hintime. rewrite Hintime, Hout, Herr, Hstatus.
  cbn [bind Z.eqb negb fst snd children].
  now rewrite (parse_output_file_existing _ _ _ Hfile).
Qed.

Lemma successful_run_returns_decoded_rows_witness :
  snd (run_transformation working_env denver_request 60 installed)
  = inr {| stdout := u "HTDP";
           stderr := [];
           results := decoded_rows
                        [u "39.000000123 104.000000456 1600.0100 Denver" ++ [0x0A]] |}
  /\ children (fst (run_transformation working_env denver_request 60 installed))
     = [Exited 0]
  /\ decoded_rows [u "39.000000123 104.000000456 1600.0100 Denver" ++ [0x0A]]
     = [ {| result_name := u "Denver";
            result_latitude := float_lit "39.000000123";
            result_longitude := float_lit "-104.000000456";
            result_ellipsoid_height := float_lit "1600.01" |} ].
Proof.
  assert (H1 : ensure_binary_exists working_env installed = inr tt)
    by (vm_compute; reflexivity).
  assert (H2 : snd (write_input_file (points denver_request)
                      (invoked_input_file working_env installed) (files installed))
               = inr tt) by (vm_compute; reflexivity).
  assert (H3 : (elapsed (invoked_run working_env denver_request installed)
                <= inject_Z 60)%Q) by (vm_compute; discriminate).
  assert (Hout : captured_text (run_stdout (invoked_run working_env denver_request installed))
                 = inr (u "HTDP")) by (vm_compute; reflexivity).
  assert (Herr : captured_text (run_stderr (invoked_run working_env denver_request installed))
                 = inr []) by (vm_compute; reflexivity).
  assert (H4 : exit_status (invoked_run working_env denver_request installed) = 0%Z)
    by reflexivity.
  assert (H5 : files_left (invoked_run working_env denver_request installed)
               !! invoked_output_file working_env installed
               = Some (b "39.000000123 104.000000456 1600.0100 Denver" ++ [newline])).
  { replace (invoked_output_file working_env installed)
      with (u "/tmp/htdp_k3x9/results.txt") by (vm_compute; reflexivity).
    unfold invoked_run, working_env. cbn [htdp files_left].
    match goal with
    | |- <[?k := _]> _ !! _ = _ =>
        replace k with (u "/tmp/htdp_k3x9/results.txt") by (vm_compute; reflexivity)
    end.
    apply lookup_insert_eq. }
  pose proof (successful_run_returns_decoded_rows working_env denver_request 60
                installed _ _ _ H1 H2 H3 Hout Herr H4 H5) as [Ha Hb].
  split; [exact Ha |]. split; [exact Hb |]. vm_compute. reflexivity.
Defined.

(** X14. A run that ends in time with status 0, whose output and error
    streams can be decoded but which leaves no output file, makes
    [run_transformation] fail with the [FileNotFoundError] of
    [parse_output_file], naming the output path; the [/transform] handler
    turns it into an HTTP 500 error. *)
Theorem missing_output_after_clean_exit (env : environment)
    (payload : TransformationRequest) (timeout : Z) (w : world) (out err : str) :
  ensure_binary_exists env w = inr tt ->
  snd (write_input_file (points payload) (invoked_input_file env w) (files w)) = inr tt ->
  (elapsed (invoked_run env payload w) <= inject_Z timeout)%Q ->
  captured_text (run_stdout (invoked_run env payload w)) = inr out ->
  captured_text (run_stderr (invoked_run env payload w)) = inr err ->
  exit_status (invoked_run env payload w) = 0%Z ->
  files_left (invoked_run env payload w) !! invoked_output_file env w = None ->
  let failure := FileNotFoundError (OutputNotCreated (invoked_output_file env w)) in
  snd (run_transformation env payload timeout w) = inl failure
  /\ (timeout = 60%Z -> snd (transform env payload w) = inl (HTTPException 500 failure)).
Proof.
  intros Hbinary Hwritten Hintime Hout Herr Hstatus Hfile failure.
  assert (Hrun : snd (run_transformation env payload timeout w) = inl failure).
  { rewrite (run_transformation_ready _ _ _ _ Hbinary). cbv zeta.
    rewrite Hwritten. apply Qle_bool_iff in Hintime.
    rewrite Hintime, Hout, Herr, Hstatus.
    cbn [bind Z.eqb negb snd]. now rewrite (parse_output_file_missing _ _ Hfile). }
  split; [exact Hrun |]. intros ->. unfold transform.
  destruct (run_transformation env payload 60 w) as [w' outcome].
  cbn [snd] in Hrun. now subst outcome.
Qed.

Lemma missing_output_after_clean_exit_witness :
  snd (run_transformation silent_env denver_request 60 installed)
  = inl (FileNotFoundError (OutputNotCreated (u "/tmp/htdp_k3x9/results.txt")))
  /\ snd (transform silent_env denver_request installed)
     = inl (HTTPException 500
              (FileNotFoundError (OutputNotCreated (u "/tmp/htdp_k3x9/results.txt")))).
Proof.
  assert (H1 : ensure_binary_exists silent_env installed = inr tt)
    by (vm_compute; reflexivity).
  assert (H2 : snd (write_input_file (points denver_request)
                      (invoked_input_file silent_env installed) (files installed))
               = inr tt) by (vm_compute; reflexivity).
  assert (H3 : (elapsed (invoked_run silent_env denver_request installed)
                <= inject_Z 60)%Q) by (vm_compute; discriminate).
  assert (Hout : captured_text (run_stdout (invoked_run silent_env denver_request installed))
                 = inr []) by (vm_compute; reflexivity).
  assert (Herr : captured_text (run_stderr (invoked_run silent_env denver_request installed))
                 = inr []) by (vm_compute; reflexivity).
  assert (H4 : exit_status (invoked_run silent_env denver_request installed) = 0%Z)
    by reflexivity.
  assert (H5 : files_left (invoked_run silent_env denver_request installed)
               !! invoked_output_file silent_env installed = None).
  { unfold invoked_run, silent_env. cbn [htdp files_left].
    unfold write_input_file. destruct (write_points _ _) as [data outcome].
    cbn [fst]. rewrite lookup_insert_ne by (vm_compute; discriminate).
    apply lookup_singleton_ne. vm_compute. discriminate. }
  pose proof (missing_output_after_clean_exit silent_env denver_request 60 installed
                _ _ H1 H2 H3 Hout Herr H4 H5) as H.
  cbv zeta in H. destruct H as [Ha Hb].
  split; [exact Ha | exact (Hb eq_refl)].
Defined.

(** X25. A run that ends in time but whose output or error stream is not
    UTF-8 makes [run_transformation] fail with [UnicodeDecodeError],
    whatever the exit status and whether or not the output file is there:
    the streams are decoded before either is looked at.  The child is
    recorded as exited, and since this error is a [ValueError] the
    [/transform] handler answers with HTTP 400. *)
Theorem undecodable_output_fails_with_UnicodeDecodeError (env : environment)
    (payload : TransformationRequest) (timeout : Z) (w : world) :
  ensure_binary_exists env w = inr tt ->
  snd (write_input_file (points payload) (invoked_input_file env w) (files w)) = inr tt ->
  (elapsed (invoked_run env payload w) <= inject_Z timeout)%Q ->
  utf8_decode_strict (run_stdout (invoked_run env payload w)) = None
  \/ utf8_decode_strict (run_stderr (invoked_run env payload w)) = None ->
  snd (run_transformation env payload timeout w) = inl UnicodeDecodeError
  /\ children (fst (run_transformation env payload timeout w))
     = children w ++ [Exited (exit_status (invoked_run env payload w))]
  /\ (timeout = 60%Z ->
      snd (transform env payload w) = inl (HTTPException 400 UnicodeDecodeError)).
Proof.
  intros Hbinary Hwritten Hintime Hgarbled.
  assert (Hrun : run_transformation env payload timeout w
                 = (remove_tree (mkdtemp env (u "htdp_") w)
                      {| files := files_left (invoked_run env payload w);
                         executables := executables w;
                         children := children w
                                     ++ [Exited (exit_status (invoked_run env payload w))] |},
                    inl UnicodeDecodeError)).
  { rewrite (run_transformation_ready _ _ _ _ Hbinary). cbv zeta.
    rewrite Hwritten. apply Qle_bool_iff in Hintime. rewrite Hintime.
    f_equal. unfold captured_text, bind, raise, ret.
    destruct Hgarbled as [Hout | Herr].
    - now rewrite Hout.
    - rewrite Herr. now destruct (utf8_decode_strict (run_stdout _)). }
  rewrite Hrun. split; [reflexivity |]. split; [reflexivity |].
  intros ->. unfold transform. now rewrite Hrun.
Qed.

Lemma undecodable_output_fails_with_UnicodeDecodeError_witness :
  exit_status (invoked_run garbling_env denver_request installed) = 0%Z
  /\ is_Some (files_left (invoked_run garbling_env denver_request installed)
              !! invoked_output_file garbling_env installed)
  /\ snd (run_transformation garbling_env denver_request 60 installed)
     = inl UnicodeDecodeError
  /\ snd (transform garbling_env denver_request installed)
     = inl (HTTPException 400 UnicodeDecodeError).
Proof.
  assert (H1 : ensure_binary_exists garbling_env installed = inr tt)
    by (vm_compute; reflexivity).
  assert (H2 : snd (write_input_file (points denver_request)
                      (invoked_input_file garbling_env installed) (files installed))
               = inr tt) by (vm_compute; reflexivity).
  assert (H3 : (elapsed (invoked_run garbling_env denver_request installed)
                <= inject_Z 60)%Q) by (vm_compute; discriminate).
  assert (H4 : utf8_decode_strict
                 (run_stdout (invoked_run garbling_env denver_request installed)) = None)
    by (vm_compute; reflexivity).
  pose proof (undecodable_output_fails_with_UnicodeDecodeError garbling_env
                denver_request 60 installed H1 H2 H3 (or_introl H4)) as [Ha [_ Hc]].
  split; [reflexivity |]. split; [| split; [exact Ha | exact (Hc eq_refl)]].
  replace (invoked_output_file garbling_env installed)
    with (u "/tmp/htdp_k3x9/results.txt") by (vm_compute; reflexivity).
  unfold invoked_run, garbling_env. cbn [htdp files_left].
  match goal with
  | |- is_Some (<[?k := _]> _ !! _) =>
      replace k with (u "/tmp/htdp_k3x9/results.txt") by (vm_compute; reflexivity)
  end.
  rewrite lookup_insert_eq. eauto.
Defined.

(** The exceptions [run_transformation] can end with. *)
Lemma run_transformation_failures (env : environment) (payload : TransformationRequest)
    (timeout : Z) (w w' : world) (e : exn) :
  run_transformation env payload timeout w = (w', inl e) ->
  e = FileNotFoundError (BinaryNotFound (HTDP_BINARY env))
  \/ e = PermissionError (HTDP_BINARY env)
  \/ e = UnicodeEncodeError
  \/ e = TimeoutExpired timeout
  \/ e = UnicodeDecodeError
  \/ (exists out err,
        captured_text (run_stdout (invoked_run env payload w)) = inr out
        /\ captured_text (run_stderr (invoked_run env payload w)) = inr err
        /\ e = RuntimeError out err)
  \/ e = FileNotFoundError (OutputNotCreated (invoked_output_file env w)).
Proof.
  destruct (ensure_binary_exists_cases env w) as [Hok | [[_ Hbad] | [_ Hbad]]].
  - rewrite (run_transformation_ready _ _ _ _ Hok). cbv zeta.
    destruct (snd (write_input_file _ _ _)) as [e' | []] eqn:Ewritten.
    + intros [= _ <-]. apply write_input_file_error in Ewritten. tauto.
    + destruct (Qle_bool _ _).
      * unfold bind.
        destruct (captured_text (run_stdout _)) as [e' | out] eqn:Eout;
          [intros [= _ <-]; apply captured_text_error in Eout; tauto |].
        destruct (captured_text (run_stderr _)) as [e' | err] eqn:Eerr;
          [intros [= _ <-]; apply captured_text_error in Eerr; tauto |].
        destruct (negb _).
        -- intros [= _ <-]. do 5 right. left. now exists out, err.
        -- destruct (parse_output_file _ _) as [e' |] eqn:Eparse; [| discriminate].
           intros [= _ <-]. apply parse_output_file_error in Eparse. tauto.
      * intros [= _ <-]. tauto.
  - unfold run_transformation. rewrite Hbad. intros [= _ <-]. tauto.
  - unfold run_transformation. rewrite Hbad. intros [= _ <-]. tauto.
Qed.

(** X15. The failures of the [/transform] handler are these and no
    others: HTTP 400 for a point that cannot be encoded and for output of
    the binary that cannot be decoded; HTTP 500 for a binary that is
    missing or not executable, for a non-zero exit status and for a
    missing output file; and [TimeoutExpired] for its 60 seconds, which no
    [except] clause catches.  Its own [ValueError], [FileNotFoundError],
    [PermissionError] and [RuntimeError] never reach the caller
    unconverted. *)
Theorem transform_failures (env : environment) (request : TransformationRequest)
    (w w' : world) (e : exn) :
  transform env request w = (w', inl e) ->
  e = HTTPException 400 UnicodeEncodeError
  \/ e = HTTPException 400 UnicodeDecodeError
  \/ (exists cause,
        e = HTTPException 500 cause
        /\ (cause = FileNotFoundError (BinaryNotFound (HTDP_BINARY env))
            \/ cause = PermissionError (HTDP_BINARY env)
            \/ (exists out err,
                  captured_text (run_stdout (invoked_run env request w)) = inr out
                  /\ captured_text (run_stderr (invoked_run env request w)) = inr err
                  /\ cause = RuntimeError out err)
            \/ cause = FileNotFoundError (OutputNotCreated (invoked_output_file env w))))
  \/ e = TimeoutExpired 60.
Proof.
  unfold transform.
  destruct (run_transformation env request 60 w) as [w1 [cause | execution]] eqn:Erun;
    [| discriminate].
  apply run_transformation_failures in Erun.
  destruct Erun as [-> | [-> | [-> | [-> | [-> | [(out & err & Hout & Herr & ->) | ->]]]]]];
    cbn [is_ValueError]; intros [= _ <-].
  - do 2 right. left. eexists. split; [reflexivity | now left].
  - do 2 right. left. eexists. split; [reflexivity | right; now left].
  - now left.
  - do 3 right. reflexivity.
  - right. now left.
  - do 2 right. left. eexists. split; [reflexivity |].
    right. right. left. now exists out, err.
  - do 2 right. left. eexists. split; [reflexivity |]. do 3 right. reflexivity.
Qed.

Lemma transform_failures_witness :
  HTTPException 500 (FileNotFoundError (BinaryNotFound (u "/srv/htdp/htdp")))
  = HTTPException 400 UnicodeEncodeError
  \/ HTTPException 500 (FileNotFoundError (BinaryNotFound (u "/srv/htdp/htdp")))
     = HTTPException 400 UnicodeDecodeError
  \/ (exists cause,
        HTTPException 500 (FileNotFoundError (BinaryNotFound (u "/srv/htdp/htdp")))
        = HTTPException 500 cause
        /\ (cause = FileNotFoundError (BinaryNotFound (HTDP_BINARY slow_env))
            \/ cause = PermissionError (HTDP_BINARY slow_env)
            \/ (exists out err,
                  captured_text
                    (run_stdout (invoked_run slow_env denver_request empty_world))
                  = inr out
                  /\ captured_text
                       (run_stderr (invoked_run slow_env denver_request empty_world))
                     = inr err
                  /\ cause = RuntimeError out err)
            \/ cause = FileNotFoundError
                         (OutputNotCreated (invoked_output_file slow_env empty_world))))
  \/ HTTPException 500 (FileNotFoundError (BinaryNotFound (u "/srv/htdp/htdp")))
     = TimeoutExpired 60.
Proof.
  apply (transform_failures slow_env denver_request empty_world empty_world).
  vm_compute. reflexivity.
Defined.

(** X16. One call of [run_transformation] starts at most one child
    process, and none is started again after a failure: the children
    recorded afterwards are those recorded before, followed by one more at
    most. *)
Theorem run_transformation_starts_at_most_one_child (env : environment)
    (payload : TransformationRequest) (timeout : Z) (w : world) :
  exists started : list child_status,
    children (fst (run_transformation env payload timeout w)) = children w ++ started
    /\ (length started <= 1)%nat.
Proof.
  destruct (ensure_binary_exists_cases env w) as [Hok | [[_ Hbad] | [_ Hbad]]].
  - rewrite (run_transformation_ready _ _ _ _ Hok). cbv zeta.
    destruct (snd (write_input_file _ _ _)) as [e | []].
    + exists []. cbn. split; [now rewrite app_nil_r | lia].
    + destruct (Qle_bool _ _); cbn [fst remove_tree children]; eexists;
        (split; [reflexivity | cbn; lia]).
  - unfold run_transformation. rewrite Hbad. exists []. cbn.
    split; [now rewrite app_nil_r | lia].
  - unfold run_transformation. rewrite Hbad. exists []. cbn.
    split; [now rewrite app_nil_r | lia].
Qed.

(** ** Output decoder: tokens and names *)

Lemma forallb_rev {A} (P : A -> bool) (l : list A) :
  forallb P (rev l) = forallb P l.
Proof.
  induction l as [|x l IH]; [reflexivity |]. simpl.
  rewrite forallb_app, IH. simpl. rewrite andb_true_r. apply andb_comm.
Qed.

Lemma is_token_cons (t : str) :
  is_token t = true ->
  exists c rest, t = c :: rest /\ isspace c = false
                 /\ forallb (fun c => negb (isspace c)) rest = true.
Proof.
  unfold is_token. destruct t as [|c rest]; [discriminate |]. simpl.
  intros H. apply andb_true_iff in H as [Hc Hrest]. apply negb_true_iff in Hc.
  eauto.
Qed.

(** Reading a run of characters that are not whitespace. *)
Lemma split_from_run (t rest cur : str) :
  forallb (fun c => negb (isspace c)) t = true ->
  split_from cur (t ++ rest) = split_from (rev t ++ cur) rest.
Proof.
  revert cur. induction t as [|c t IH]; intros cur Ht; [reflexivity |].
  simpl in Ht. apply andb_true_iff in Ht as [Hc Ht]. apply negb_true_iff in Hc.
  simpl. rewrite Hc, (IH _ Ht). now rewrite <- app_assoc.
Qed.

Lemma rev_cons_not_nil (c : N) (rest : str) : rev (c :: rest) <> [].
Proof.
  intros E. apply (f_equal (@length N)) in E. rewrite length_rev in E. discriminate.
Qed.

Lemma split_from_end (cur : str) : cur <> [] -> split_from cur [] = [rev cur].
Proof. destruct cur; [congruence | reflexivity]. Qed.

Lemma split_from_space (cur rest : str) :
  cur <> [] -> split_from cur (0x20 :: rest) = rev cur :: split_from [] rest.
Proof. destruct cur; [congruence | reflexivity]. Qed.

Lemma split_single (t : str) : is_token t = true -> split t = [t].
Proof.
  intros Ht. destruct (is_token_cons t Ht) as (c & rest & -> & Hc & Hrest).
  unfold split.
  assert (Hall : forallb (fun c => negb (isspace c)) (c :: rest) = true)
    by (simpl; now rewrite Hc, Hrest).
  pose proof (split_from_run (c :: rest) [] [] Hall) as H.
  rewrite !app_nil_r in H. rewrite H.
  rewrite split_from_end by apply rev_cons_not_nil.
  now rewrite rev_involutive.
Qed.

Lemma join_space_cons (a c : str) (rest : list str) :
  join (u " ") (a :: c :: rest) = a ++ 0x20 :: join (u " ") (c :: rest).
Proof. reflexivity. Qed.

(** Tokens joined by single spaces split back into the same tokens. *)
Lemma split_join (tokens : list str) :
  forallb is_token tokens = true -> split (join (u " ") tokens) = tokens.
Proof.
  induction tokens as [|t tokens IH]; [reflexivity |].
  cbn [forallb]. intros H. apply andb_true_iff in H as [Ht Hrest].
  destruct tokens as [|t2 tokens]; [now apply split_single |].
  specialize (IH Hrest). rewrite join_space_cons.
  destruct (is_token_cons t Ht) as (c & rest & -> & Hc & Hr).
  assert (Hall : forallb (fun c => negb (isspace c)) (c :: rest) = true)
    by (simpl; now rewrite Hc, Hr).
  unfold split.
  rewrite (split_from_run (c :: rest) _ [] Hall), app_nil_r.
  rewrite split_from_space by apply rev_cons_not_nil.
  rewrite rev_involutive. f_equal. exact IH.
Qed.

Lemma join_tokens_ends (t : str) (tokens : list str) :
  forallb is_token (t :: tokens) = true ->
  exists first middle last,
    (join (u " ") (t :: tokens) = [first] /\ isspace first = false)
    \/ (join (u " ") (t :: tokens) = first :: middle ++ [last]
        /\ isspace first = false /\ isspace last = false).
Proof.
  revert t. induction tokens as [|t2 tokens IH]; intros t H.
  - cbn [forallb] in H. rewrite andb_true_r in H. cbn [join].
    destruct (is_token_cons t H) as (c & rest & -> & Hc & Hr).
    destruct rest as [|x rest] using rev_ind.
    + exists c, [], c. now left.
    + exists c, rest, x. right. split; [reflexivity |]. split; [exact Hc |].
      rewrite forallb_app in Hr. apply andb_true_iff in Hr as [_ Hx].
      simpl in Hx. rewrite andb_true_r in Hx. now apply negb_true_iff.
  - cbn [forallb] in H. apply andb_true_iff in H as [Ht Hrest].
    destruct (IH t2 Hrest) as (f2 & m2 & l2 & Hj).
    destruct (is_token_cons t Ht) as (c & rest & -> & Hc & _).
    rewrite join_space_cons.
    destruct Hj as [[Hj Hf] | [Hj [Hf Hl]]].
    + exists c, (rest ++ [0x20]), f2. right. rewrite Hj.
      split; [simpl; now rewrite <- app_assoc | now split].
    + exists c, (rest ++ 0x20 :: f2 :: m2), l2. right. rewrite Hj.
      split; [| now split].
      simpl. rewrite <- !app_assoc. simpl. reflexivity.
Qed.

(** Text that starts and ends with characters other than whitespace is
    left alone by [strip], also when a newline follows it. *)
Lemma strip_join_tokens (t : str) (tokens : list str) :
  forallb is_token (t :: tokens) = true ->
  strip (join (u " ") (t :: tokens) ++ [0x0A]) = join (u " ") (t :: tokens)
  /\ strip (join (u " ") (t :: tokens)) = join (u " ") (t :: tokens).
Proof.
  intros H. destruct (join_tokens_ends t tokens H) as (f & m & l & Hj).
  destruct Hj as [[-> Hf] | [-> [Hf Hl]]].
  - unfold strip, strip_with. simpl. rewrite Hf. simpl. rewrite Hf. now split.
  - destruct (strip_keeps_prefix f l m [0x0A] Hf Hl) as [r1 H1].
    destruct (strip_keeps_prefix f l m [] Hf Hl) as [r2 H2].
    unfold strip, strip_with in *.
    split.
    + change ((f :: m ++ [l]) ++ [10]) with ((f :: m ++ [l]) ++ [10]).
      assert (Hd : dropwhile isspace ((f :: m ++ [l]) ++ [10]) = (f :: m ++ [l]) ++ [10])
        by (simpl; now rewrite Hf).
      rewrite Hd, rev_app_distr. simpl rev at 1. simpl.
      change (rev (m ++ [l]) ++ [f]) with (rev (m ++ [l]) ++ [f]).
      rewrite rev_app_distr. simpl. rewrite Hl. simpl.
      rewrite rev_app_distr, rev_involutive. reflexivity.
    + assert (Hd : dropwhile isspace (f :: m ++ [l]) = f :: m ++ [l])
        by (simpl; now rewrite Hf).
      rewrite Hd. change (f :: m ++ [l]) with ((f :: m) ++ [l]) at 1.
      rewrite rev_app_distr. simpl. rewrite Hl. simpl.
      rewrite rev_app_distr, rev_involutive. reflexivity.
Qed.

Lemma startswith_nil (s : str) : startswith s [] = true.
Proof. now destruct s. Qed.

(** A marker free of spaces that begins a line begins its first token. *)
Lemma startswith_first_token (p t rest : str) :
  forallb (fun c => negb (c =? 0x20)) p = true ->
  startswith (t ++ 0x20 :: rest) p = true -> startswith t p = true.
Proof.
  revert t. induction p as [|a p IH]; intros t Hp H; [apply startswith_nil |].
  cbn [forallb] in Hp. apply andb_true_iff in Hp as [Ha Hp].
  destruct t as [|c t]; simpl in *.
  - apply andb_true_iff in H as [H _]. rewrite H in Ha. discriminate.
  - apply andb_true_iff in H as [Hc H]. rewrite Hc. now apply IH.
Qed.

(** X17. A data line made of three numeric tokens and one or more name
    tokens, separated by single spaces, with or without a final newline,
    decodes to the three numbers (the second negated) and to the name
    tokens joined by single spaces. *)
Theorem decode_synthetic_data_line (lat_text west_text height_text : str)
    (name_tokens : list str) (lat west height : spec_float) :
  forallb is_token (lat_text :: west_text :: height_text :: name_tokens) = true ->
  name_tokens <> [] ->
  begins_with_banner lat_text = false ->
  float_of_str lat_text = inr lat ->
  float_of_str west_text = inr west ->
  float_of_str height_text = inr height ->
  let line := join (u " ") (lat_text :: west_text :: height_text :: name_tokens) in
  let row := {| result_name := join (u " ") name_tokens;
                result_latitude := lat;
                result_longitude := float_neg west;
                result_ellipsoid_height := height |} in
  parse_line line = inr (Some row) /\ parse_line (line ++ [0x0A]) = inr (Some row).
Proof.
  intros Htokens Hname Hbanner Hlat Hwest Hheight line row.
  destruct name_tokens as [|n ns]; [congruence |].
  pose proof (strip_join_tokens _ _ Htokens) as [Hstrip_nl Hstrip].
  pose proof (split_join _ Htokens) as Hsplit.
  assert (Hb : begins_with_banner line = false).
  { unfold begins_with_banner in *. apply orb_false_iff in Hbanner as [HT Hs].
    subst line. rewrite join_space_cons.
    apply orb_false_iff. split.
    - destruct (startswith (lat_text ++ 32 :: _) (u "TRANSFORMING")) eqn:E;
        [| reflexivity].
      apply startswith_first_token in E; [congruence | reflexivity].
    - destruct (startswith (lat_text ++ 32 :: _) (u "***")) eqn:E; [| reflexivity].
      apply startswith_first_token in E; [congruence | reflexivity]. }
  fold line in Hstrip_nl, Hstrip, Hsplit.
  assert (Hline : forall l, strip l = line -> parse_line l = inr (Some row)).
  { intros l Hl. unfold parse_line. rewrite Hl.
    fold (begins_with_banner line). rewrite Hb, Hsplit.
    destruct line as [|c rest]; [discriminate |].
    cbn [length Nat.ltb Nat.leb item nth_error skipn].
    unfold bind, ret. now rewrite Hlat, Hwest, Hheight. }
  split; [apply Hline, Hstrip | apply Hline, Hstrip_nl].
Qed.

Lemma decode_synthetic_data_line_witness :
  parse_line (u "39.5 104.25 1600.125 Denver Union Station")
  = inr (Some {| result_name := u "Denver Union Station";
                 result_latitude := float_lit "39.5";
                 result_longitude := float_neg (float_lit "104.25");
                 result_ellipsoid_height := float_lit "1600.125" |})
  /\ parse_line (u "39.5 104.25 1600.125 Denver Union Station" ++ [0x0A])
     = inr (Some {| result_name := u "Denver Union Station";
                    result_latitude := float_lit "39.5";
                    result_longitude := float_neg (float_lit "104.25");
                    result_ellipsoid_height := float_lit "1600.125" |}).
Proof.
  refine (decode_synthetic_data_line (u "39.5") (u "104.25") (u "1600.125")
            [u "Denver"; u "Union"; u "Station"] _ _ _ _ _ _ _ _ _);
    try (vm_compute; reflexivity). discriminate.
Defined.

(** ** Decimal text of an index *)

Lemma uint_chars_digits (d : Decimal.uint) :
  forallb is_ascii_digit (uint_chars d) = true.
Proof. induction d; simpl; auto. Qed.

Lemma digits_value_acc (d : Decimal.uint) (acc : positive) :
  fold_left (fun a c => (10 * a + Z.of_N (c - 0x30))%Z) (uint_chars d) (Zpos acc)
  = Zpos (Pos.of_uint_acc d acc).
Proof.
  revert acc. induction d; intros acc; cbn [uint_chars fold_left Pos.of_uint_acc];
    [reflexivity | ..];
    match goal with
    | |- fold_left _ _ ?z = Zpos (Pos.of_uint_acc _ ?q) =>
        replace z with (Zpos q) by (cbn; lia)
    end; apply IHd.
Qed.

Lemma digits_value_uint (d : Decimal.uint) :
  digits_value (uint_chars d) = Z.of_N (Pos.of_uint d).
Proof.
  unfold digits_value.
  induction d; cbn [uint_chars fold_left Pos.of_uint]; [reflexivity | exact IHd | ..];
    match goal with
    | |- fold_left _ _ ?z = Z.of_N (Npos (Pos.of_uint_acc _ ?q)) =>
        change z with (Zpos q)
    end; apply digits_value_acc.
Qed.

Lemma digits_of_N_value (n : N) : digits_value (digits_of_N n) = Z.of_N n.
Proof.
  unfold digits_of_N. rewrite digits_value_uint.
  f_equal. apply DecimalN.Unsigned.of_to.
Qed.

Lemma digits_of_N_not_empty (n : N) : digits_of_N n <> [].
Proof.
  unfold digits_of_N. intros H.
  assert (Hn : N.to_uint n = Nil) by (destruct (N.to_uint n); [reflexivity | discriminate ..]).
  pose proof (DecimalN.Unsigned.of_to n) as Hof. rewrite Hn in Hof.
  cbn in Hof. subst n. discriminate.
Qed.

Lemma dropwhile_suffix (p : N -> bool) (s : str) :
  exists pre, s = pre ++ dropwhile p s.
Proof.
  induction s as [|c s [pre IH]]; [now exists [] |]. simpl.
  destruct (p c); [| now exists []].
  exists (c :: pre). simpl. now rewrite <- IH.
Qed.

Lemma dropwhile_head (p : N -> bool) (s : str) (c : N) (rest : str) :
  dropwhile p s = c :: rest -> p c = false.
Proof.
  induction s as [|x s IH]; simpl; [discriminate |].
  destruct (p x) eqn:E; [exact IH |]. now intros [= <- _].
Qed.

Lemma dropwhile_fixed (p : N -> bool) (s : str) :
  (forall c rest, s = c :: rest -> p c = false) -> dropwhile p s = s.
Proof.
  destruct s as [|c s]; [reflexivity |]. intros H. simpl.
  now rewrite (H c s eq_refl).
Qed.

Lemma strip_with_padded (p : N -> bool) (before s after : str) :
  forallb p before = true -> forallb p after = true ->
  forallb (fun c => negb (p c)) s = true ->
  strip_with p (before ++ s ++ after) = s.
Proof.
  intros Hbefore Hafter Hs. unfold strip_with.
  rewrite dropwhile_app, (dropwhile_all p before Hbefore).
  destruct s as [|c s'] eqn:Es.
  - cbn [app]. now rewrite (dropwhile_all p after Hafter).
  - rewrite <- Es in *.
    assert (Hkeep : dropwhile p (s ++ after) = s ++ after).
    { apply dropwhile_fixed. intros x rest E. rewrite Es in E, Hs.
      injection E as <- _. cbn [forallb] in Hs.
      apply andb_true_iff in Hs as [Hc _]. now apply negb_true_iff. }
    rewrite Hkeep, rev_app_distr, dropwhile_app.
    rewrite (dropwhile_all p (rev after)) by now rewrite forallb_rev.
    assert (Hrev : dropwhile p (rev s) = rev s).
    { apply dropwhile_fixed. intros x rest E.
      assert (Hin : In x (rev s)) by (rewrite E; now left).
      apply in_rev in Hin. rewrite forallb_forall in Hs.
      now apply negb_true_iff, Hs. }
    rewrite Hrev.
    destruct (rev s) eqn:Er; [| rewrite <- Er; apply rev_involutive].
    apply (f_equal (@rev N)) in Er. rewrite rev_involutive in Er. now rewrite Er.
Qed.

Lemma strip_with_nothing (p : N -> bool) (s : str) :
  forallb (fun c => negb (p c)) s = true -> strip_with p s = s.
Proof.
  intros H. unfold strip_with.
  assert (Hdrop : forall t, forallb (fun c => negb (p c)) t = true -> dropwhile p t = t).
  { intros [|c t] Ht; [reflexivity |]. simpl in *.
    apply andb_true_iff in Ht as [Hc _]. apply negb_true_iff in Hc. now rewrite Hc. }
  rewrite (Hdrop s H), Hdrop by now rewrite forallb_rev.
  apply rev_involutive.
Qed.

Lemma forallb_impl (P Q : N -> bool) (s : str) :
  (forall c, P c = true -> Q c = true) -> forallb P s = true -> forallb Q s = true.
Proof.
  intros HPQ. induction s as [|c s IH]; [reflexivity |]. simpl.
  intros H. apply andb_true_iff in H as [Hc Hs]. now rewrite (HPQ c Hc), IH.
Qed.

Lemma ascii_digit_range (c : N) : is_ascii_digit c = true -> 0x30 <= c <= 0x39.
Proof.
  unfold is_ascii_digit, between. intros H.
  apply andb_true_iff in H as [H1 H2]. apply N.leb_le in H1, H2. lia.
Qed.

Lemma ascii_digit_not_space (c : N) :
  is_ascii_digit c = true -> negb (isspace c) = true /\ negb (c_isspace c) = true.
Proof.
  intros H. apply ascii_digit_range in H.
  unfold isspace, c_isspace, between.
  split;
    repeat (match goal with
            | |- context [?a <=? ?b] => destruct (N.leb_spec a b)
            | |- context [?a =? ?b] => destruct (N.eqb_spec a b)
            end; try lia);
    reflexivity.
Qed.

Lemma ascii_digit_isdigit (c : N) : is_ascii_digit c = true -> isdigit_char c = true.
Proof.
  intros H. unfold isdigit_char, decimal_value, decimal_zeros. cbn [List.find].
  change (between 0x30 (0x30 + 9) c) with (is_ascii_digit c). now rewrite H.
Qed.

Lemma to_ascii_decimal_digits (s : str) :
  forallb is_ascii_digit s = true -> to_ascii_decimal s = Some s.
Proof.
  induction s as [|c s IH]; [reflexivity |]. cbn [forallb to_ascii_decimal].
  intros H. apply andb_true_iff in H as [Hc Hs]. apply ascii_digit_range in Hc.
  replace (c <? 127) with true by (symmetry; apply N.ltb_lt; lia).
  now rewrite IH.
Qed.

Lemma remove_underscores_digits (s : str) (prev : N) :
  prev <> 0x5F -> forallb is_ascii_digit s = true -> remove_underscores prev s = Some s.
Proof.
  revert prev. induction s as [|c s IH]; intros prev Hprev H; cbn [remove_underscores].
  - apply N.eqb_neq in Hprev. now rewrite Hprev.
  - cbn [forallb] in H. apply andb_true_iff in H as [Hc Hs].
    apply ascii_digit_range in Hc.
    replace (c =? 0x5F) with false by (symmetry; apply N.eqb_neq; lia).
    apply N.eqb_neq in Hprev. rewrite Hprev. cbn [andb].
    rewrite IH by (trivial; lia). reflexivity.
Qed.

Lemma int_of_str_digits (s : str) :
  forallb is_ascii_digit s = true -> s <> [] ->
  (length s <=? int_max_str_digits)%nat = true ->
  int_of_str s = inr (digits_value s).
Proof.
  intros Hdig Hne Hlen. unfold int_of_str.
  rewrite (to_ascii_decimal_digits s Hdig).
  rewrite strip_with_nothing
    by (revert Hdig; apply forallb_impl; intros c Hc; now apply ascii_digit_not_space).
  destruct s as [|c rest]; [congruence |].
  assert (Hc : 0x30 <= c <= 0x39).
  { cbn [forallb] in Hdig. apply andb_true_iff in Hdig as [Hc _].
    now apply ascii_digit_range. }
  replace (match c with
           | 43 => (false, rest) | 45 => (true, rest) | _ => (false, c :: rest)
           end) with (false, c :: rest).
  2:{ destruct c as [|p]; [reflexivity |].
      do 6 (destruct p as [p | p |]; try reflexivity); lia. }
  rewrite (remove_underscores_digits (c :: rest) 0) by (trivial; lia).
  rewrite Hdig. cbn [negb orb].
  replace (length (c :: rest) =? 0)%nat with false by reflexivity.
  replace (int_max_str_digits <? length (c :: rest))%nat with false; [reflexivity |].
  symmetry. apply Nat.ltb_ge. now apply Nat.leb_le.
Qed.

Lemma isdigit_digits (s : str) :
  forallb is_ascii_digit s = true -> s <> [] -> isdigit s = true.
Proof.
  intros Hdig Hne. destruct s as [|c rest]; [congruence |].
  unfold isdigit. revert Hdig. apply forallb_impl. exact ascii_digit_isdigit.
Qed.

(** X18. A non-negative number written in decimal, with any whitespace
    around it, resolves exactly as the number itself does: to the same
    index when it is a listed one, and to the same unknown-index error
    otherwise. *)
Theorem resolve_frame_decimal_text (i : Z) (before after : str) :
  (0 <= i)%Z ->
  (length (str_of_int i) <=? int_max_str_digits)%nat = true ->
  forallb isspace before = true ->
  forallb isspace after = true ->
  resolve_frame (FStr (before ++ str_of_int i ++ after)) = resolve_frame (FInt i).
Proof.
  intros Hi Hlen Hbefore Hafter.
  assert (Hstr : str_of_int i = digits_of_N (Z.to_N i)) by (destruct i; [reflexivity .. | lia]).
  rewrite Hstr in *.
  pose proof (uint_chars_digits (N.to_uint (Z.to_N i))) as Hdig.
  fold (digits_of_N (Z.to_N i)) in Hdig.
  pose proof (digits_of_N_not_empty (Z.to_N i)) as Hne.
  assert (Hstrip : strip (before ++ digits_of_N (Z.to_N i) ++ after)
                   = digits_of_N (Z.to_N i)).
  { apply strip_with_padded; try assumption. revert Hdig. apply forallb_impl.
    intros c Hc. now apply ascii_digit_not_space. }
  rewrite resolve_frame_digits by (rewrite Hstrip; now apply isdigit_digits).
  rewrite Hstrip, int_of_str_digits by assumption.
  rewrite digits_of_N_value, Z2N.id by assumption. reflexivity.
Qed.

Lemma resolve_frame_decimal_text_witness :
  resolve_frame (FStr (u "  " ++ str_of_int 27 ++ [0x0A])) = resolve_frame (FInt 27).
Proof.
  apply resolve_frame_decimal_text; [lia | vm_compute; reflexivity ..].
Defined.

(** ** Text written for a point *)

Lemma forallb_firstn {A} (P : A -> bool) (n : nat) (l : list A) :
  forallb P l = true -> forallb P (firstn n l) = true.
Proof.
  revert n. induction l as [|x l IH]; intros [|n] H; try reflexivity.
  simpl in *. apply andb_true_iff in H as [-> Hl]. now apply IH.
Qed.

Lemma forallb_skipn {A} (P : A -> bool) (n : nat) (l : list A) :
  forallb P l = true -> forallb P (skipn n l) = true.
Proof.
  revert n. induction l as [|x l IH]; intros [|n] H; try reflexivity; [exact H |].
  simpl in *. apply andb_true_iff in H as [_ Hl]. now apply IH.
Qed.

Lemma zeros_printable (n : nat) : forallb printable (zeros n) = true.
Proof. induction n as [|n IH]; [reflexivity | exact IH]. Qed.

Lemma digits_printable (n : N) : forallb printable (digits_of_N n) = true.
Proof.
  apply (forallb_impl is_ascii_digit); [| apply uint_chars_digits].
  intros c Hc. apply ascii_digit_range in Hc.
  unfold printable, between. apply andb_true_iff. split; apply N.leb_le; lia.
Qed.

Lemma format_f_printable (p : nat) (x : spec_float) :
  forallb printable (format_f p x) = true.
Proof.
  assert (Hbody : forall ds : str,
            forallb printable ds = true ->
            forallb printable
              (match p with
               | O => ds
               | _ => firstn (length ds - p) ds ++ [0x2E] ++ skipn (length ds - p) ds
               end) = true).
  { intros ds Hds. destruct p; [exact Hds |].
    rewrite !forallb_app, forallb_firstn, forallb_skipn by exact Hds. reflexivity. }
  assert (Hpad : forall scaled : Z,
            forallb printable
              (zeros (S p - length (digits_of_N (Z.to_N scaled)))
               ++ digits_of_N (Z.to_N scaled)) = true).
  { intros scaled. now rewrite forallb_app, zeros_printable, digits_printable. }
  unfold format_f.
  destruct x as [s | s | | s m e].
  - rewrite forallb_app. apply andb_true_iff.
    split; [now destruct s | apply Hbody, Hpad].
  - now destruct s.
  - reflexivity.
  - rewrite forallb_app. apply andb_true_iff.
    split; [now destruct s | apply Hbody, Hpad].
Qed.

Lemma printable_encodable (c : N) : printable c = true -> encodable c = true.
Proof.
  unfold printable, encodable, between. intros H.
  apply andb_true_iff in H as [H1 H2]. apply N.leb_le in H1, H2.
  repeat (match goal with
          | |- context [?a <=? ?b] => destruct (N.leb_spec a b)
          | |- context [?a <? ?b] => destruct (N.ltb_spec a b)
          end; try lia); reflexivity.
Qed.

Lemma printable_plain (c : N) :
  printable c = true -> (c <? 0x80) && negb ((c =? 0x0A) || (c =? 0x0D)) = true.
Proof.
  unfold printable, between. intros H.
  apply andb_true_iff in H as [H1 H2]. apply N.leb_le in H1, H2.
  repeat (match goal with
          | |- context [?a =? ?b] => destruct (N.eqb_spec a b)
          | |- context [?a <? ?b] => destruct (N.ltb_spec a b)
          end; try lia); reflexivity.
Qed.

(** ** Encoding *)

Lemma utf8_encode_char_cases (c : N) :
  match utf8_encode_char c with
  | Some _ => encodable c = true
  | None => encodable c = false
  end.
Proof.
  unfold utf8_encode_char, encodable, between.
  repeat (match goal with
          | |- context [?a <=? ?b] => destruct (N.leb_spec a b)
          | |- context [?a <? ?b] => destruct (N.ltb_spec a b)
          end; try lia); reflexivity.
Qed.

Lemma utf8_encode_cases (s : str) :
  match utf8_encode s with
  | inr _ => forallb encodable s = true
  | inl e => forallb encodable s = false /\ e = UnicodeEncodeError
  end.
Proof.
  induction s as [|c s IH]; [reflexivity |]. cbn [utf8_encode forallb].
  pose proof (utf8_encode_char_cases c) as Hc.
  destruct (utf8_encode_char c) as [bs |]; rewrite Hc; [| now split].
  unfold bind, ret. destruct (utf8_encode s) as [e | rest]; exact IH.
Qed.

Lemma format_f_encodable (p : nat) (x : spec_float) :
  forallb encodable (format_f p x) = true.
Proof.
  apply (forallb_impl printable); [exact printable_encodable |].
  apply format_f_printable.
Qed.

Lemma point_line_encodable (p : TransformationPoint) :
  forallb encodable (point_line p) = forallb encodable (name p).
Proof.
  unfold point_line. rewrite !forallb_app, !format_f_encodable.
  change (forallb encodable (u ",")) with true.
  change (forallb encodable [0x0A]) with true.
  cbn [andb]. apply andb_true_r.
Qed.

Lemma write_points_outcome (pts : list TransformationPoint) :
  forall written : bytes,
    snd (write_points pts written) =
    if forallb (fun p => forallb encodable (name p)) pts
    then inr tt else inl UnicodeEncodeError.
Proof.
  induction pts as [|pt pts IH]; intros written; [reflexivity |].
  cbn [write_points forallb].
  pose proof (utf8_encode_cases (point_line pt)) as Hpt.
  rewrite point_line_encodable in Hpt.
  destruct (utf8_encode (point_line pt)) as [e | data].
  - destruct Hpt as [-> ->]. reflexivity.
  - rewrite Hpt. apply IH.
Qed.

(** X19. Writing the point file fails exactly when some name holds a
    character that UTF-8 cannot encode (a lone surrogate), with
    UnicodeEncodeError; the numbers never make it fail.  The file exists
    afterwards either way, and no other file is touched. *)
Theorem write_input_file_outcome (pts : list TransformationPoint) (path : str)
    (fs : filesystem) :
  snd (write_input_file pts path fs) =
    (if forallb (fun p => forallb encodable (name p)) pts
     then inr tt else inl UnicodeEncodeError)
  /\ is_Some (fst (write_input_file pts path fs) !! path)
  /\ forall other, other <> path ->
       fst (write_input_file pts path fs) !! other = fs !! other.
Proof.
  unfold write_input_file.
  pose proof (write_points_outcome pts []) as Hout.
  destruct (write_points pts []) as [data outcome]. cbn [fst snd] in *.
  split; [exact Hout |]. split.
  - rewrite lookup_insert_eq. now exists data.
  - intros other Hother. now rewrite lookup_insert_ne.
Qed.

(** ** Lines of a text *)

Lemma text_lines_from_line (l : str) :
  no_line_break l = true ->
  forall cur rest,
    text_lines_from cur (l ++ 0x0A :: rest)
    = (rev cur ++ l ++ [0x0A]) :: text_lines_from [] rest.
Proof.
  unfold no_line_break.
  induction l as [|c l IH]; intros H cur rest.
  - reflexivity.
  - cbn [forallb] in H. apply andb_true_iff in H as [Hc Hl].
    apply negb_true_iff, orb_false_iff in Hc as [Hn Hr].
    cbn [app text_lines_from]. rewrite Hn, Hr, (IH Hl).
    cbn [rev]. now rewrite <- app_assoc.
Qed.

Lemma text_lines_terminated (bodies : list str) :
  forallb no_line_break bodies = true ->
  text_lines (concat (map (fun l => l ++ [0x0A]) bodies))
  = map (fun l => l ++ [0x0A]) bodies.
Proof.
  unfold text_lines.
  induction bodies as [|l bodies IH]; [reflexivity |].
  cbn [forallb map concat]. intros H. apply andb_true_iff in H as [Hl Hrest].
  rewrite <- app_assoc. cbn [app].
  rewrite (text_lines_from_line l Hl). cbn [rev app]. now rewrite IH.
Qed.

Lemma point_line_text (p : TransformationPoint) :
  point_line p = point_text p ++ [0x0A].
Proof. unfold point_line, point_text. now rewrite <- !app_assoc. Qed.

Lemma forallb_and {A} (P Q : A -> bool) (l : list A) :
  forallb (fun x => P x && Q x) l = forallb P l && forallb Q l.
Proof.
  induction l as [|x l IH]; [reflexivity |]. simpl. rewrite IH.
  destruct (P x), (Q x), (forallb P l); reflexivity.
Qed.

Lemma format_f_plain (p : nat) (x : spec_float) : plain_text (format_f p x) = true.
Proof.
  unfold plain_text, no_line_break. rewrite <- forallb_and.
  apply (forallb_impl printable); [exact printable_plain |].
  apply format_f_printable.
Qed.

Lemma plain_text_app (s t : str) :
  plain_text (s ++ t) = plain_text s && plain_text t.
Proof.
  unfold plain_text, no_line_break. now rewrite <- !forallb_and, forallb_app.
Qed.

Lemma point_text_plain (p : TransformationPoint) :
  plain_text (name p) = true -> plain_text (point_text p) = true.
Proof.
  intros Hname. unfold point_text.
  rewrite !plain_text_app, !format_f_plain, Hname. reflexivity.
Qed.

Lemma utf8_encode_ascii (s : str) :
  forallb (fun c => c <? 0x80) s = true -> utf8_encode s = inr (map byte_of s).
Proof.
  induction s as [|c s IH]; [reflexivity |]. cbn [forallb utf8_encode map].
  intros H. apply andb_true_iff in H as [Hc Hs].
  unfold utf8_encode_char. rewrite Hc, (IH Hs). reflexivity.
Qed.

Lemma write_points_plain (pts : list TransformationPoint) :
  forallb (fun p => plain_text (name p)) pts = true ->
  forall written : bytes,
    write_points pts written
    = (written ++ map byte_of (concat (map point_line pts)), inr tt).
Proof.
  induction pts as [|pt pts IH]; intros H written.
  - cbn. now rewrite app_nil_r.
  - cbn [forallb] in H. apply andb_true_iff in H as [Hpt Hpts].
    cbn [write_points map concat].
    apply point_text_plain in Hpt. unfold plain_text in Hpt.
    apply andb_true_iff in Hpt as [Hascii _].
    rewrite utf8_encode_ascii.
    + rewrite (IH Hpts). now rewrite map_app, app_assoc.
    + rewrite point_line_text, forallb_app, Hascii. reflexivity.
Qed.

(** X20. When every name is ASCII text without a line break, the file
    written holds, byte for byte, the characters of one line per point, in
    the order of the points: earlier content of the file is gone, and read
    as text the file has as many lines as there are points. *)
Theorem write_input_file_one_line_per_point (pts : list TransformationPoint)
    (path : str) (fs : filesystem) :
  forallb (fun p => plain_text (name p)) pts = true ->
  write_input_file pts path fs
  = (<[path := map byte_of (concat (map point_line pts))]> fs, inr tt)
  /\ text_lines (concat (map point_line pts)) = map point_line pts
  /\ length (text_lines (concat (map point_line pts))) = length pts.
Proof.
  intros H.
  assert (Hlines : text_lines (concat (map point_line pts)) = map point_line pts).
  { rewrite (map_ext point_line (fun p => point_text p ++ [0x0A]) point_line_text).
    rewrite <- (map_map point_text (fun l => l ++ [0x0A])).
    apply text_lines_terminated. rewrite forallb_forall in *.
    intros l Hl. apply in_map_iff in Hl as (p & <- & Hp).
    specialize (H p Hp). apply point_text_plain in H.
    unfold plain_text in H. now apply andb_true_iff in H as [_ H]. }
  split; [| split; [exact Hlines | now rewrite Hlines, length_map]].
  unfold write_input_file. now rewrite (write_points_plain pts H []).
Qed.

Lemma write_input_file_one_line_per_point_witness :
  forallb (fun p => plain_text (name p)) [denver; denver] = true
  /\ length (text_lines (concat (map point_line [denver; denver]))) = 2%nat.
Proof.
  split; [vm_compute; reflexivity |].
  apply (write_input_file_one_line_per_point [denver; denver] [] ∅).
  vm_compute; reflexivity.
Defined.

(** ** Lines of the script *)

Lemma float_repr_printable (x : spec_float) :
  forallb printable (float_repr x) = true.
Proof.
  unfold float_repr. destruct x as [s | s | | s m e].
  - now destruct s.
  - now destruct s.
  - reflexivity.
  - destruct (shortest_decimal 17 1 m e (decimal_exponent (magnitude m e))) as [d k].
    cbv zeta.
    generalize (digits_printable (Z.to_N d)).
    generalize (digits_of_N (Z.to_N d)). intros ds Hds.
    pose proof (forallb_skipn printable 1 ds Hds) as Hskip.
    rewrite forallb_app. apply andb_true_iff. split; [now destruct s |].
    repeat match goal with
           | |- context [if ?c then _ else _] => destruct c
           end;
      destruct (skipn 1 ds); cbn [forallb] in Hskip;
      rewrite ?forallb_app, ?forallb_firstn, ?forallb_skipn, ?zeros_printable,
        ?digits_printable by assumption;
      cbn [forallb]; rewrite ?Hskip, ?Hds; reflexivity.
Qed.

Lemma str_of_int_printable (i : Z) : forallb printable (str_of_int i) = true.
Proof.
  destruct i; cbn [str_of_int forallb]; rewrite ?digits_printable; reflexivity.
Qed.

Lemma printable_no_line_break (s : str) :
  forallb printable s = true -> no_line_break s = true.
Proof.
  unfold no_line_break. apply forallb_impl. intros c Hc.
  apply printable_plain in Hc. now apply andb_true_iff in Hc as [_ Hc].
Qed.

Lemma join_newline (first : str) (lines : list str) :
  join [0x0A] (first :: lines) ++ [0x0A]
  = concat (map (fun l => l ++ [0x0A]) (first :: lines)).
Proof.
  revert first. induction lines as [|second lines IH]; intros first.
  - cbn. now rewrite app_nil_r.
  - change (join [0x0A] (first :: second :: lines))
      with (first ++ [0x0A] ++ join [0x0A] (second :: lines)).
    rewrite <- !app_assoc, IH. cbn [map concat]. now rewrite <- !app_assoc.
Qed.

(** X21. When neither path holds a line break, the script read line by
    line is the twelve commands in order, each on a line of its own:
    no frame index and no epoch, whatever its value, can spill into a
    second line. *)
Theorem script_one_command_per_line (output_path : str)
    (input_frame output_frame : Z) (input_epoch output_epoch : spec_float)
    (input_file : str) :
  no_line_break output_path = true ->
  no_line_break input_file = true ->
  text_lines (build_stdin_script output_path input_frame output_frame
                input_epoch output_epoch input_file)
  = map (fun l => l ++ [0x0A])
      (script_lines output_path input_frame output_frame input_epoch
         output_epoch input_file)
  /\ length (text_lines (build_stdin_script output_path input_frame output_frame
                           input_epoch output_epoch input_file)) = 12%nat.
Proof.
  intros Hout Hin.
  assert (Hlines :
    text_lines (build_stdin_script output_path input_frame output_frame
                  input_epoch output_epoch input_file)
    = map (fun l => l ++ [0x0A])
        (script_lines output_path input_frame output_frame input_epoch
           output_epoch input_file)).
  { unfold build_stdin_script, script_lines. cbn [app].
    rewrite join_newline. apply text_lines_terminated.
    cbn [forallb]. rewrite Hout, Hin.
    rewrite !(printable_no_line_break _ (str_of_int_printable _)).
    rewrite !(printable_no_line_break _ (float_repr_printable _)).
    reflexivity. }
  split; [exact Hlines |]. now rewrite Hlines, length_map.
Qed.

Lemma script_one_command_per_line_witness :
  no_line_break (u "/tmp/htdp_k3x9/output.txt") = true
  /\ no_line_break (u "/tmp/htdp_k3x9/points.txt") = true
  /\ length (text_lines (build_stdin_script (u "/tmp/htdp_k3x9/output.txt") 1 8
                           (float_lit "2010.0") (float_lit "2020.5")
                           (u "/tmp/htdp_k3x9/points.txt"))) = 12%nat.
Proof.
  split; [vm_compute; reflexivity |]. split; [vm_compute; reflexivity |].
  apply (script_one_command_per_line (u "/tmp/htdp_k3x9/output.txt") 1 8
           (float_lit "2010.0") (float_lit "2020.5") (u "/tmp/htdp_k3x9/points.txt"));
    vm_compute; reflexivity.
Defined.

(** ** Trimmed names *)

Lemma strip_with_ends (p : N -> bool) (s : str) :
  dropwhile p (strip_with p s) = strip_with p s
  /\ dropwhile p (rev (strip_with p s)) = rev (strip_with p s).
Proof.
  unfold strip_with. rewrite rev_involutive.
  set (t := dropwhile p s). set (r := dropwhile p (rev t)).
  assert (Hr : dropwhile p r = r).
  { apply dropwhile_fixed. intros c rest E. exact (dropwhile_head p (rev t) c rest E). }
  split; [| exact Hr].
  apply dropwhile_fixed. intros c rest E.
  destruct (dropwhile_suffix p (rev t)) as [pre Hpre]. fold r in Hpre.
  apply (f_equal (@rev N)) in Hpre. rewrite rev_involutive, rev_app_distr, E in Hpre.
  apply (dropwhile_head p s c (rest ++ rev pre)). exact Hpre.
Qed.

Lemma strip_with_idempotent (p : N -> bool) (s : str) :
  strip_with p (strip_with p s) = strip_with p s.
Proof.
  destruct (strip_with_ends p s) as [Hfront Hback].
  unfold strip_with at 1. rewrite Hfront, Hback. apply rev_involutive.
Qed.

(** X22. A validated point name neither starts nor ends with whitespace,
    and validating it again leaves it as it is. *)
Theorem strip_name_trimmed (value : str) :
  _strip_name (_strip_name value) = _strip_name value
  /\ (forall c rest, _strip_name value = c :: rest -> isspace c = false)
  /\ (forall rest c, _strip_name value = rest ++ [c] -> isspace c = false).
Proof.
  unfold _strip_name, strip.
  destruct (strip_with_ends isspace value) as [Hfront Hback].
  split; [apply strip_with_idempotent |]. split.
  - intros c rest E. rewrite E in Hfront. simpl in Hfront.
    destruct (isspace c) eqn:Ec; [| reflexivity].
    exfalso. destruct (dropwhile_suffix isspace rest) as [pre Hpre].
    rewrite Hfront in Hpre. apply (f_equal (@length N)) in Hpre.
    rewrite length_app in Hpre. simpl in Hpre. lia.
  - intros rest c E. rewrite E, rev_app_distr in Hback. simpl in Hback.
    destruct (isspace c) eqn:Ec; [| reflexivity].
    exfalso. destruct (dropwhile_suffix isspace (rev rest)) as [pre Hpre].
    rewrite Hback in Hpre. apply (f_equal (@length N)) in Hpre.
    rewrite length_app in Hpre. simpl in Hpre. lia.
Qed.

(** ** Rows of a file *)

Lemma decoded_rows_app (l1 l2 : list str) :
  decoded_rows (l1 ++ l2) = decoded_rows l1 ++ decoded_rows l2.
Proof. unfold decoded_rows. apply flat_map_app. Qed.

Lemma decoded_rows_length (lines : list str) :
  (length (decoded_rows lines) <= length lines)%nat.
Proof.
  induction lines as [|line lines IH]; [reflexivity |].
  change (decoded_rows (line :: lines))
    with ((if is_noise line then []
           else match data_row line with Some r => [r] | None => [] end)
          ++ decoded_rows lines).
  rewrite length_app. cbn [length].
  destruct (is_noise line); [cbn; lia |].
  destruct (data_row line); cbn; lia.
Qed.

(** X23. The decoding loop only ever appends: the results found so far
    stay in front, every line adds at most one result, and reading the
    lines in two parts, one after the other, gives what reading them all
    gives. *)
Theorem parse_lines_appends_in_order (l1 l2 : list str)
    (found : list TransformationResult) :
  parse_lines (l1 ++ l2) found
  = (do first <- parse_lines l1 found; parse_lines l2 first)
  /\ exists rows,
       parse_lines l1 found = inr (found ++ rows)
       /\ (length rows <= length l1)%nat.
Proof.
  split.
  - rewrite !parse_lines_spec. unfold bind. rewrite parse_lines_spec.
    now rewrite decoded_rows_app, app_assoc.
  - exists (decoded_rows l1). split; [apply parse_lines_spec |].
    apply decoded_rows_length.
Qed.

(** ** Fields of a point's line *)

Lemma format_f_chars (P : N -> bool) (p : nat) (x : spec_float) :
  (forall c, is_ascii_digit c = true -> P c = true) ->
  forallb P (u "-.nanif") = true ->
  forallb P (format_f p x) = true.
Proof.
  intros Hdigit Hother.
  assert (Hin : forall c, In c [0x2D; 0x2E; 0x6E; 0x61; 0x69; 0x66] -> P c = true).
  { intros c Hc. rewrite forallb_forall in Hother. apply Hother.
    cbn in Hc |- *. tauto. }
  assert (Hminus : P 0x2D = true) by (apply Hin; cbn; tauto).
  assert (Hpoint : P 0x2E = true) by (apply Hin; cbn; tauto).
  assert (Hzeros : forall n, forallb P (zeros n) = true).
  { induction n as [|n IH]; [reflexivity |]. cbn [zeros repeat forallb].
    rewrite (Hdigit 0x30 eq_refl). exact IH. }
  assert (Hdigits : forall n, forallb P (digits_of_N n) = true).
  { intros n. apply (forallb_impl is_ascii_digit); [exact Hdigit |].
    apply uint_chars_digits. }
  assert (Hbody : forall ds : str,
            forallb P ds = true ->
            forallb P
              (match p with
               | O => ds
               | _ => firstn (length ds - p) ds ++ [0x2E] ++ skipn (length ds - p) ds
               end) = true).
  { intros ds Hds. destruct p; [exact Hds |].
    rewrite !forallb_app, forallb_firstn, forallb_skipn by exact Hds.
    cbn [forallb]. now rewrite Hpoint. }
  assert (Hpad : forall scaled : Z,
            forallb P
              (zeros (S p - length (digits_of_N (Z.to_N scaled)))
               ++ digits_of_N (Z.to_N scaled)) = true).
  { intros scaled. now rewrite forallb_app, Hzeros, Hdigits. }
  assert (Hsign : forall s : bool, forallb P (if s then [0x2D] else []) = true).
  { intros [|]; [| reflexivity]. cbn [forallb]. now rewrite Hminus. }
  assert (Hinf : forallb P (u "inf") = true).
  { change (u "inf") with [0x69; 0x6E; 0x66]. cbn [forallb].
    rewrite !Hin by (cbn; tauto). reflexivity. }
  assert (Hnan : forallb P (u "nan") = true).
  { change (u "nan") with [0x6E; 0x61; 0x6E]. cbn [forallb].
    rewrite !Hin by (cbn; tauto). reflexivity. }
  unfold format_f.
  destruct x as [s | s | | s m e].
  - rewrite forallb_app, Hsign. apply Hbody, Hpad.
  - now rewrite forallb_app, Hsign.
  - exact Hnan.
  - rewrite forallb_app, Hsign. apply Hbody, Hpad.
Qed.

Lemma format_f_no_comma (p : nat) (x : spec_float) :
  forallb (fun c => negb (c =? 0x2C)) (format_f p x) = true.
Proof.
  apply format_f_chars; [| reflexivity].
  intros c Hc. apply ascii_digit_range in Hc.
  apply negb_true_iff, N.eqb_neq. lia.
Qed.

Lemma before_first_app (c : N) (field rest : str) :
  forallb (fun x => negb (x =? c)) field = true ->
  before_first c (field ++ c :: rest) = field.
Proof.
  unfold before_first. induction field as [|x field IH]; intros H.
  - cbn. now rewrite N.eqb_refl.
  - cbn [forallb] in H. apply andb_true_iff in H as [Hx Hfield].
    cbn [app takewhile]. now rewrite Hx, IH.
Qed.

Lemma after_first_app (c : N) (field rest : str) :
  forallb (fun x => negb (x =? c)) field = true ->
  after_first c (field ++ c :: rest) = rest.
Proof.
  unfold after_first. induction field as [|x field IH]; intros H.
  - cbn. now rewrite N.eqb_refl.
  - cbn [forallb] in H. apply andb_true_iff in H as [Hx Hfield].
    cbn [app dropwhile]. now rewrite Hx, IH.
Qed.

(** X24. The line written for a point can be taken apart again: up to the
    first comma it is the latitude with twelve decimals, then the negated
    longitude with twelve, then the height with four, and all that follows
    the third comma is the name and the newline -- also when the name
    itself holds commas, since no number does. *)
Theorem point_line_fields (point : TransformationPoint) :
  let line := point_line point in
  let after_latitude := after_first 0x2C line in
  let after_longitude := after_first 0x2C after_latitude in
  before_first 0x2C line = format_f 12 (latitude point)
  /\ before_first 0x2C after_latitude = format_f 12 (float_neg (longitude point))
  /\ before_first 0x2C after_longitude = format_f 4 (ellipsoid_height point)
  /\ after_first 0x2C after_longitude = name point ++ [0x0A].
Proof.
  cbv zeta. unfold point_line. change (u ",") with [0x2C]. cbn [app].
  rewrite !after_first_app, !before_first_app by apply format_f_no_comma.
  repeat split.
Qed.

(** ** Numbers in fixed notation read back *)















(** ** The longitude round trip *)










